(** * Polymarket smart-money analyzer: wallet scoring, cluster detection
      and signal aggregation

    A shallow embedding of [scorer.py] and of the result-collection loop of
    [analyzer.py], with the properties of the engine proved on it.

    Conventions of the embedding.
    - Python numbers ([int] and [float]) are exact rationals [Q]; the
      floating-point rounding of the interpreter is idealised away.  Unix
      timestamps of positions and profiles are integers [Z].
    - A Python [dict] used as a map is a [gmap]; a dict with a fixed set of
      keys (position, profile, signal) is a record whose fields carry the
      keys' names.
    - The parts of the Python runtime that are not rational arithmetic
      ([math.sqrt], [math.log2], [math.exp], [round], number formatting,
      the clock) are the fields of the class [Runtime].
    - An exception is the [Raises] case of [result].
    - The clock is read once: every [datetime.now] of one evaluation gives
      the same instant [now]. *)

From Stdlib Require Import QArith Qminmax Qabs Qround Lqa ZArith Lia String Ascii.
From stdpp Require Import gmap strings list fin_maps pretty sorting.

Open Scope Q_scope.

(* ===================================================================== *)
(** ** Numbers, strings and exceptions                                    *)
(* ===================================================================== *)

#[global] Instance Q_inhabited : Inhabited Q := populate 0.

(** [x < y] and [x <= y] on Python numbers, as booleans. *)
Definition Qltb (x y : Q) : bool := negb (Qle_bool y x).
Definition Qleb (x y : Q) : bool := Qle_bool x y.

(** An [int] used where a number is expected. *)
Definition ofZ (z : Z) : Q := inject_Z z.
Definition ofnat (n : nat) : Q := inject_Z (Z.of_nat n).

(** [sum(xs)]: Python folds from the left, starting at [0]. *)
Definition sumQ (xs : list Q) : Q := foldl Qplus 0 xs.

(** [str.lower()], on the ASCII letters. *)
Definition lower_ascii (c : ascii) : ascii :=
  let n := nat_of_ascii c in
  if Nat.leb 65 n && Nat.leb n 90 then ascii_of_nat (n + 32) else c.

Fixpoint lower (s : string) : string :=
  match s with
  | EmptyString => EmptyString
  | String c rest => String (lower_ascii c) (lower rest)
  end.

(** [needle in hay] on strings. *)
Fixpoint contains (needle hay : string) : bool :=
  String.prefix needle hay ||
  match hay with
  | EmptyString => false
  | String _ rest => contains needle rest
  end.

(** [s.endswith(suffix)]. *)
Definition endswith (s suffix : string) : bool :=
  String.prefix (String.rev suffix) (String.rev s).

Inductive exn : Type :=
  | ValueError
  | RequestException.

Inductive result (A : Type) : Type :=
  | Returns (a : A)
  | Raises (e : exn).
Arguments Returns {A} a.
Arguments Raises {A} e.

#[global] Instance result_bind : MBind result :=
  fun A B (k : A -> result B) (r : result A) =>
    match r with
    | Returns a => k a
    | Raises e => Raises e
    end.

(** The Python runtime outside rational arithmetic. *)
Class Runtime : Type := {
  (** [math.sqrt] on its domain, the non-negative numbers *)
  sqrt : Q -> Q;
  (** [math.log2] *)
  log2 : Q -> Q;
  (** [math.log], the natural logarithm *)
  log : Q -> Q;
  (** [math.exp] *)
  exp : Q -> Q;
  (** [round(x, ndigits)] *)
  round : Q -> Z -> Q;
  (** [format(x, spec)], the number formatting of an f-string field *)
  format : Q -> string -> string;
  (** [int(datetime.now(timezone.utc).timestamp())] *)
  now : Z;
  (** [int(datetime.fromisoformat(s).timestamp())]; [None] when it raises *)
  fromisoformat : string -> option Z;
}.

(** [math.sqrt(x)]: a negative argument raises [ValueError]. *)
Definition math_sqrt `{Runtime} (x : Q) : result Q :=
  if Qltb x 0 then Raises ValueError else Returns (sqrt x).

(* ===================================================================== *)
(** ** scorer.py: thresholds and weights                                  *)
(* ===================================================================== *)

Definition MIN_TOTAL_PNL : Q := 5000.
Definition MIN_REALIZED_PNL : Q := 500.
Definition MIN_MARKETS : Q := 5.
Definition MIN_CLOSED_WINS : Q := 3.

Definition WEIGHT_profit : Q := 0.30.
Definition WEIGHT_win_rate : Q := 0.25.
Definition WEIGHT_conviction : Q := 0.20.
Definition WEIGHT_recency : Q := 0.15.
Definition WEIGHT_timing : Q := 0.10.

Definition CLUSTER_WINDOW_HOURS : Z := 24.
Definition CLUSTER_VOTE_CAP : Q := 1.5.

(* ===================================================================== *)
(** ** scorer.py: the data                                                *)
(* ===================================================================== *)

(** [stats.get(key, default)] on the wallet statistics. *)
Definition get (stats : gmap string Q) (key : string) (default : Q) : Q :=
  match stats !! key with
  | Some v => v
  | None => default
  end.

Module Position.
Record t : Type := {
  outcome : string;
  net_shares : Q;
  avg_entry : Q;
  usdc_invested : Q;
  first_trade_ts : Z;
  num_buys : Z;
  num_sells : Z;
}.
End Position.

Module Market.
Record t : Type := {
  yes_price : Q;
  end_date : string;
}.
End Market.

Module Profile.
Record t : Type := {
  address : string;
  outcome : string;
  composite : Q;
  composite_base : Q;
  s_profit : Q;
  s_win_rate : Q;
  s_conviction : Q;
  s_recency : Q;
  s_timing : Q;
  cat_multiplier : Q;
  form_multiplier : Q;
  hold_score : Q;
  total_pnl : Q;
  realized_pnl : Q;
  win_rate : Q;
  markets_traded : Q;
  closed_wins : Q;
  closed_total : Q;
  total_volume : Q;
  recent_pnl : Q;
  historical_pnl : Q;
  net_shares : Q;
  usdc_invested : Q;
  avg_entry : Q;
  num_buys : Z;
  num_sells : Z;
  first_trade_ts : Z;
  last_trade_ts : Q;
}.
End Profile.

Module Signal.
Record t : Type := {
  signal : string;
  strength : string;
  confidence : Q;
  reasoning : string;
  yes_pct : Q;
  no_pct : Q;
  yes_count : nat;
  no_count : nat;
  total_qualified : nat;
  top5_consensus : string;
  whale_warning : option string;
  cluster_warning : option string;
  clusters_found : nat;
}.
End Signal.

(* ===================================================================== *)
(** ** scorer.py: the five sub-scores                                     *)
(* ===================================================================== *)

Section Scoring.
Context `{RT : Runtime}.

Definition score_profit (total_pnl min_threshold : Q) : result Q :=
  if Qltb total_pnl min_threshold then Returns 0
  else r ← math_sqrt (total_pnl / 200000); Returns (Qmin r 1).

Definition score_win_rate (win_rate num_markets : Q) : Q :=
  if Qeq_bool num_markets 0 then 0
  else
    let confidence := Qmin (num_markets / 100) 1 in
    let adjusted_wr := win_rate * confidence + 0.5 * (1 - confidence) in
    Qmax ((adjusted_wr - 0.5) * 2) 0.

Definition score_conviction (position_usdc avg_position_usdc : Q) : Q :=
  if Qleb avg_position_usdc 0 then 0.5
  else
    let ratio := position_usdc / avg_position_usdc in
    if Qleb ratio 1 then 0.25 + 0.25 * ratio
    else Qmin (0.5 + 0.5 * log2 (ratio + 1) / 3.32) 1.

Definition score_recency (last_trade_ts : Q) : Q :=
  let days := Qmax ((ofZ now - last_trade_ts) / 86400) 0 in
  let decay := log 2 / 180 in
  exp (- decay * days).

Definition score_entry_timing (avg_entry current_yes_price : Q)
    (outcome : string) (first_trade_ts market_start_ts market_end_ts : Z) : Q :=
  if Qleb avg_entry 0 || Qleb current_yes_price 0 then 0.5
  else
    let '(entry, current) :=
      if String.eqb (lower outcome) "yes"
      then (avg_entry, current_yes_price)
      else (1 - avg_entry, 1 - current_yes_price) in
    if Qleb entry 0 then 0.5
    else
      let pct_move := (current - entry) / entry in
      let timing :=
        if Qleb 0 pct_move then 0.5 + 0.5 * Qmin pct_move 1
        else Qmax (0.5 + pct_move) 0 in
      let duration := (market_end_ts - market_start_ts)%Z in
      let timing :=
        if (0 <? duration)%Z then
          let position_in_market :=
            ofZ (first_trade_ts - market_start_ts) / ofZ duration in
          if Qltb position_in_market 0.2 then Qmin (timing + 0.15) 1
          else timing
        else timing in
      Qmax (Qmin timing 1) 0.

(** Layer 1: category expertise multiplier. *)
Definition compute_category_multiplier (category_pnl category_total : Q) : Q :=
  if Qleb category_total 0 || Qltb category_pnl 0 then 1
  else
    let ratio := Qmax (Qmin (category_pnl / category_total) 1) 0 in
    0.85 + 0.40 * ratio.

(** Layer 3: recent form multiplier. *)
Definition compute_recent_form_multiplier (recent_pnl historical_pnl : Q) : Q :=
  if Qleb historical_pnl 0 && Qleb recent_pnl 0 then 1
  else if Qleb historical_pnl 0 && Qltb 0 recent_pnl then 1.10
  else if Qleb recent_pnl 0 && Qltb 0 historical_pnl then 0.90
  else
    let ratio := recent_pnl / historical_pnl in
    let capped := Qmin ratio 2 in
    0.90 + 0.15 * capped.

(** Layer 4: hold duration score. *)
Definition compute_hold_duration_score (first_trade_ts market_start_ts : Z) : Q :=
  let market_age := Z.max (now - market_start_ts) 1 in
  let hold_seconds := Z.max (now - first_trade_ts) 0 in
  Qmin (ofZ hold_seconds / ofZ market_age) 1.

(* ===================================================================== *)
(** ** scorer.py: score_wallet                                            *)
(* ===================================================================== *)

(** The four hard filters, in the order [score_wallet] applies them. *)
Inductive hard_filter : Type :=
  | FilterTotalPnl
  | FilterRealizedPnl
  | FilterMarkets
  | FilterClosedWins.

#[global] Instance hard_filter_eq_dec : EqDecision hard_filter.
Proof. solve_decision. Defined.

(** [realized_pnl if realized_pnl > 0 else pnl * 0.3] *)
Definition effective_realized (stats : gmap string Q) : Q :=
  let pnl := get stats "total_pnl" 0 in
  let realized_pnl := get stats "realized_pnl" 0 in
  if Qltb 0 realized_pnl then realized_pnl else pnl * 0.3.

(** [score_wallet]: [Returns None] is the rejection marker, [Returns (Some p)]
    the scored profile. *)
Definition score_wallet (wallet_addr : string) (position : Position.t)
    (stats : gmap string Q) (market : Market.t) (market_start_ts : Z)
    (min_profit : Q) : result (option Profile.t) :=
  let pnl := get stats "total_pnl" 0 in
  let realized_pnl := get stats "realized_pnl" 0 in
  let win_rate := get stats "win_rate" 0.5 in
  let markets := get stats "markets_traded" 0 in
  let total_vol := get stats "total_volume" 0 in
  let last_trade_ts := get stats "last_trade_ts" 0 in
  let closed_wins := get stats "closed_wins" 0 in
  let closed_total := get stats "closed_total" 0 in
  let recent_pnl := get stats "recent_pnl" 0 in
  let historical_pnl := get stats "historical_pnl" 0 in
  let category_pnl := get stats "category_pnl" 0 in
  let category_total := get stats "category_total" 0 in
  if Qltb pnl min_profit then Returns None
  else
  let effective_realized := if Qltb 0 realized_pnl then realized_pnl else pnl * 0.3 in
  if Qltb effective_realized MIN_REALIZED_PNL then Returns None
  else
  if Qltb markets MIN_MARKETS then Returns None
  else
  if Qltb 0 closed_total && Qltb closed_wins MIN_CLOSED_WINS then Returns None
  else
  let outcome := Position.outcome position in
  let net_shares := Position.net_shares position in
  let avg_entry := Position.avg_entry position in
  let usdc_invested := Position.usdc_invested position in
  let first_trade_ts := Position.first_trade_ts position in
  let avg_pos := if Qltb 0 markets then total_vol / markets else usdc_invested in
  let market_end_ts :=
    match fromisoformat (Market.end_date market +:+ "T00:00:00+00:00") with
    | Some ts => ts
    | None => (now + 86400 * 30)%Z
    end in
  s_profit ← score_profit pnl min_profit;
  let s_wr := score_win_rate win_rate markets in
  let s_conv := score_conviction usdc_invested avg_pos in
  let s_rec := score_recency last_trade_ts in
  let s_timing :=
    score_entry_timing avg_entry (Market.yes_price market) outcome
      first_trade_ts market_start_ts market_end_ts in
  let composite :=
    s_profit * WEIGHT_profit + s_wr * WEIGHT_win_rate
    + s_conv * WEIGHT_conviction + s_rec * WEIGHT_recency
    + s_timing * WEIGHT_timing in
  let hold_score := compute_hold_duration_score first_trade_ts market_start_ts in
  let composite := Qmin (composite + hold_score * 0.05) 1 in
  let cat_multiplier := compute_category_multiplier category_pnl category_total in
  let form_multiplier := compute_recent_form_multiplier recent_pnl historical_pnl in
  let final_composite := Qmin (composite * cat_multiplier * form_multiplier) 1 in
  Returns (Some {|
    Profile.address := wallet_addr;
    Profile.outcome := outcome;
    Profile.composite := round final_composite 4;
    Profile.composite_base := round composite 4;
    Profile.s_profit := round s_profit 3;
    Profile.s_win_rate := round s_wr 3;
    Profile.s_conviction := round s_conv 3;
    Profile.s_recency := round s_rec 3;
    Profile.s_timing := round s_timing 3;
    Profile.cat_multiplier := round cat_multiplier 3;
    Profile.form_multiplier := round form_multiplier 3;
    Profile.hold_score := round hold_score 3;
    Profile.total_pnl := pnl;
    Profile.realized_pnl := realized_pnl;
    Profile.win_rate := win_rate;
    Profile.markets_traded := markets;
    Profile.closed_wins := closed_wins;
    Profile.closed_total := closed_total;
    Profile.total_volume := total_vol;
    Profile.recent_pnl := recent_pnl;
    Profile.historical_pnl := historical_pnl;
    Profile.net_shares := net_shares;
    Profile.usdc_invested := usdc_invested;
    Profile.avg_entry := avg_entry;
    Profile.num_buys := Position.num_buys position;
    Profile.num_sells := Position.num_sells position;
    Profile.first_trade_ts := first_trade_ts;
    Profile.last_trade_ts := last_trade_ts;
  |}).

(** Which [return None] of the hard-filter block [score_wallet] reaches:
    the filter that rejects the wallet, [None] when all four pass. *)
Definition rejecting_filter (stats : gmap string Q) (min_profit : Q)
    : option hard_filter :=
  if Qltb (get stats "total_pnl" 0) min_profit then Some FilterTotalPnl
  else if Qltb (effective_realized stats) MIN_REALIZED_PNL then Some FilterRealizedPnl
  else if Qltb (get stats "markets_traded" 0) MIN_MARKETS then Some FilterMarkets
  else if Qltb 0 (get stats "closed_total" 0)
          && Qltb (get stats "closed_wins" 0) MIN_CLOSED_WINS
       then Some FilterClosedWins
  else None.

End Scoring.

(* ===================================================================== *)
(** ** scorer.py: detect_clusters (Layer 5)                               *)
(* ===================================================================== *)

(** [window = CLUSTER_WINDOW_HOURS * 3600] *)
Definition window : Z := (CLUSTER_WINDOW_HOURS * 3600)%Z.

(** The inner loop [for p2 in profiles[i + 1:]], on the wallets after the
    seed [p1]; the state is the cluster being built and the set [used]. *)
Fixpoint scan_later (p1 : Profile.t) (later : list Profile.t)
    (cluster : list string) (used : gset string) : list string * gset string :=
  match later with
  | [] => (cluster, used)
  | p2 :: rest =>
      if decide (Profile.address p2 ∈ used) then scan_later p1 rest cluster used
      else if (Z.abs (Profile.first_trade_ts p1 - Profile.first_trade_ts p2)
               <=? window)%Z
      then scan_later p1 rest (cluster ++ [Profile.address p2])
                      ({[Profile.address p2]} ∪ used)
      else scan_later p1 rest cluster used
  end.

(** The outer loop [for i, p1 in enumerate(profiles)], on the remaining
    suffix of the list; the state is [used] and [clusters]. *)
Fixpoint detect_loop (profiles : list Profile.t) (used : gset string)
    (clusters : list (list string)) : list (list string) :=
  match profiles with
  | [] => clusters
  | p1 :: later =>
      if decide (Profile.address p1 ∈ used) then detect_loop later used clusters
      else
        let '(cluster, used) :=
          scan_later p1 later [Profile.address p1] used in
        if (1 <? length cluster)%nat
        then detect_loop later ({[Profile.address p1]} ∪ used) (clusters ++ [cluster])
        else detect_loop later used clusters
  end.

Definition detect_clusters (profiles : list Profile.t) : list (list string) :=
  detect_loop profiles ∅ [].

(* ===================================================================== *)
(** ** scorer.py: aggregate_signal                                        *)
(* ===================================================================== *)

(** [outcome.lower() == "yes"] and [outcome.lower() == "no"] *)
Definition is_yes (outcome : string) : bool := String.eqb (lower outcome) "yes".
Definition is_no (outcome : string) : bool := String.eqb (lower outcome) "no".

(** [s.replace(a, b)] for single characters. *)
Fixpoint replace (s : string) (a b : ascii) : string :=
  match s with
  | EmptyString => EmptyString
  | String c rest => String (if Ascii.eqb c a then b else c) (replace rest a b)
  end.

(** [max(clusters, key=len)]: the first cluster of maximal length. *)
Definition biggest_of (first : list string) (others : list (list string))
    : list string :=
  foldl (fun best c => if (length best <? length c)%nat then c else best)
        first others.

(** The loop filling [cluster_map]: [cid] is the index [enumerate] gives. *)
Fixpoint cluster_map_from (cid : nat) (clusters : list (list string))
    (cluster_map : gmap string nat) : gmap string nat :=
  match clusters with
  | [] => cluster_map
  | cluster :: rest =>
      cluster_map_from (S cid) rest
        (foldl (fun m addr => <[addr := cid]> m) cluster_map cluster)
  end.

Definition _empty_signal (reason : string) : Signal.t := {|
  Signal.signal := "NO_CLEAR_SIGNAL";
  Signal.strength := "N/A";
  Signal.confidence := 0;
  Signal.reasoning := reason;
  Signal.yes_pct := 0;
  Signal.no_pct := 0;
  Signal.yes_count := 0;
  Signal.no_count := 0;
  Signal.total_qualified := 0;
  Signal.top5_consensus := "N/A";
  Signal.whale_warning := None;
  Signal.cluster_warning := None;
  Signal.clusters_found := 0;
|}.

Section Aggregation.
Context `{RT : Runtime}.

Definition vote_raw (p : Profile.t) : Q :=
  Profile.composite p * Profile.s_conviction p
  * sqrt (Qmax (Profile.usdc_invested p) 1).

Definition cluster_map (profiles : list Profile.t) : gmap string nat :=
  cluster_map_from 0 (detect_clusters profiles) ∅.

(** One round of the loop filling [cluster_votes] and [cluster_counts]. *)
Definition tally_member (cmap : gmap string nat)
    (acc : gmap nat Q * gmap nat Z) (p : Profile.t) : gmap nat Q * gmap nat Z :=
  match cmap !! Profile.address p with
  | Some cid =>
      (<[cid := default 0 (acc.1 !! cid) + vote_raw p]> acc.1,
       <[cid := (default 0 (acc.2 !! cid) + 1)%Z]> acc.2)
  | None => acc
  end.

(** The profiles the tally loop books on cluster [cid]. *)
Definition booked (cmap : gmap string nat) (cid : nat)
    (profiles : list Profile.t) : list Profile.t :=
  filter (fun p => cmap !! Profile.address p = Some cid) profiles.

Definition cluster_tallies (profiles : list Profile.t)
    : gmap nat Q * gmap nat Z :=
  foldl (tally_member (cluster_map profiles)) (∅, ∅) profiles.

Definition cluster_votes (profiles : list Profile.t) : gmap nat Q :=
  (cluster_tallies profiles).1.

Definition cluster_counts (profiles : list Profile.t) : gmap nat Z :=
  (cluster_tallies profiles).2.

(** The scale factor of one cluster: [cap / total if total > 0 else 1.0]. *)
Definition cap_scale (counts : gmap nat Z) (cid : nat) (total : Q) : Q :=
  let avg_single := total / ofZ (counts !!! cid) in
  let cap := avg_single * CLUSTER_VOTE_CAP in
  if Qltb 0 total then cap / total else 1.

Definition cluster_caps (profiles : list Profile.t) : gmap nat Q :=
  map_imap (fun cid total => Some (cap_scale (cluster_counts profiles) cid total))
           (cluster_votes profiles).

Definition vote (profiles : list Profile.t) (p : Profile.t) : Q :=
  let raw := vote_raw p in
  match cluster_map profiles !! Profile.address p with
  | Some cid => raw * (cluster_caps profiles !!! cid)
  | None => raw
  end.

Definition yes_profiles (profiles : list Profile.t) : list Profile.t :=
  filter (fun p => is_yes (Profile.outcome p)) profiles.

Definition no_profiles (profiles : list Profile.t) : list Profile.t :=
  filter (fun p => is_no (Profile.outcome p)) profiles.

Definition yes_votes (profiles : list Profile.t) : Q :=
  sumQ (vote profiles <$> yes_profiles profiles).

Definition no_votes (profiles : list Profile.t) : Q :=
  sumQ (vote profiles <$> no_profiles profiles).

(** [total = yes_votes + no_votes or 1] *)
Definition total (profiles : list Profile.t) : Q :=
  let s := yes_votes profiles + no_votes profiles in
  if Qeq_bool s 0 then 1 else s.

Definition yes_pct (profiles : list Profile.t) : Q :=
  yes_votes profiles / total profiles.

Definition no_pct (profiles : list Profile.t) : Q :=
  no_votes profiles / total profiles.

End Aggregation.

(** Top-5 consensus. *)
Definition top5 (profiles : list Profile.t) : list Profile.t := take 5 profiles.

Definition top5_yes (profiles : list Profile.t) : nat :=
  length (filter (fun p => is_yes (Profile.outcome p)) (top5 profiles)).

Definition top5_no (profiles : list Profile.t) : nat :=
  (length (top5 profiles) - top5_yes profiles)%nat.

Definition top_label (profiles : list Profile.t) : string :=
  let y := top5_yes profiles in
  let n := top5_no profiles in
  if (4 <=? y)%nat then "Strong YES (" +:+ pretty y +:+ "/5)"
  else if (4 <=? n)%nat then "Strong NO (" +:+ pretty n +:+ "/5)"
  else if (3 <=? y)%nat then "Lean YES (" +:+ pretty y +:+ "/5)"
  else if (3 <=? n)%nat then "Lean NO (" +:+ pretty n +:+ "/5)"
  else "Split (" +:+ pretty y +:+ "/" +:+ pretty n +:+ ")".

Section Verdict.
Context `{RT : Runtime}.

Definition spread (profiles : list Profile.t) : Q :=
  Qabs (yes_pct profiles - no_pct profiles).

Definition n_factor (profiles : list Profile.t) : Q :=
  Qmin (ofnat (length profiles) / 10) 1.5.

Definition cons_bonus (profiles : list Profile.t) : Q :=
  if contains "Strong" (top_label profiles) then 2
  else if contains "Lean" (top_label profiles) then 1
  else 0.

Definition confidence (profiles : list Profile.t) : Q :=
  Qmin (spread profiles * 10 * n_factor profiles + cons_bonus profiles) 10.

Definition dominant_pct (profiles : list Profile.t) : Q :=
  Qmax (yes_pct profiles) (no_pct profiles).

Definition strength (profiles : list Profile.t) : option string :=
  let d := dominant_pct profiles in
  if Qleb 0.65 d then Some "STRONG"
  else if Qleb 0.57 d then Some "MODERATE"
  else if Qleb 0.52 d then Some "WEAK"
  else None.

Definition signal (profiles : list Profile.t) : string :=
  match strength profiles with
  | None => "NO_CLEAR_SIGNAL"
  | Some _ =>
      if Qltb (no_pct profiles) (yes_pct profiles) then "BUY_YES" else "BUY_NO"
  end.

(** Whale dominance check: [profiles[0]] against [profiles[1]], under the
    guard [len(profiles) >= 2]. *)
Definition whale_warning (profiles : list Profile.t) : option string :=
  match profiles with
  | p0 :: p1 :: _ =>
      let top := Profile.usdc_invested p0 in
      let sec := Profile.usdc_invested p1 in
      if Qltb 0 sec && Qleb 3 (top / sec)
      then Some ("Single whale dominates (" +:+ format (top / sec) ".1f"
                 +:+ "× #2 holder)")
      else None
  | _ => None
  end.

Definition cluster_warning (profiles : list Profile.t) : option string :=
  match detect_clusters profiles with
  | [] => None
  | c :: others =>
      let biggest := biggest_of c others in
      if (3 <=? length biggest)%nat
      then Some (pretty (length biggest)
                 +:+ " wallets entered within 24h of each other — "
                 +:+ "possible coordination (vote weight capped)")
      else None
  end.

Definition dominant_side (profiles : list Profile.t) : string :=
  if Qltb (no_pct profiles) (yes_pct profiles) then "YES" else "NO".

Definition dominant_count (profiles : list Profile.t) : nat :=
  if String.eqb (dominant_side profiles) "YES"
  then length (yes_profiles profiles) else length (no_profiles profiles).

Definition top_avg_pnl (profiles : list Profile.t) : Q :=
  sumQ (Profile.total_pnl <$> take 5 profiles)
  / ofnat (Nat.min 5 (length profiles)).

Definition reasoning (profiles : list Profile.t) : string :=
  let base :=
    (match strength profiles with Some s => s +:+ " " | None => "" end)
    +:+ replace (signal profiles) "_" " " +:+ ": "
    +:+ pretty (dominant_count profiles) +:+ "/" +:+ pretty (length profiles)
    +:+ " qualified wallets positioned " +:+ dominant_side profiles
    +:+ " (" +:+ format (dominant_pct profiles) ".0%" +:+ " weighted vote). "
    +:+ "Top-5 consensus: " +:+ top_label profiles +:+ ". "
    +:+ "Avg P&L of top-5: $" +:+ format (top_avg_pnl profiles) ",.0f" +:+ "." in
  let with_whale :=
    match whale_warning profiles with
    | Some w => base +:+ " ⚠️ " +:+ w +:+ "."
    | None => base
    end in
  match cluster_warning profiles with
  | Some c => with_whale +:+ " 🔗 " +:+ c +:+ "."
  | None => with_whale
  end.

Definition aggregate_signal (profiles : list Profile.t) : Signal.t :=
  if (length profiles <? 3)%nat
  then _empty_signal ("Only " +:+ pretty (length profiles)
                      +:+ " qualified wallets — need 3+ for a signal")
  else {|
    Signal.signal := signal profiles;
    Signal.strength := default "N/A" (strength profiles);
    Signal.confidence := round (confidence profiles) 1;
    Signal.reasoning := reasoning profiles;
    Signal.yes_pct := round (yes_pct profiles * 100) 1;
    Signal.no_pct := round (no_pct profiles * 100) 1;
    Signal.yes_count := length (yes_profiles profiles);
    Signal.no_count := length (no_profiles profiles);
    Signal.total_qualified := length profiles;
    Signal.top5_consensus := top_label profiles;
    Signal.whale_warning := whale_warning profiles;
    Signal.cluster_warning := cluster_warning profiles;
    Signal.clusters_found := length (detect_clusters profiles);
  |}.

End Verdict.

(* ===================================================================== *)
(** ** analyzer.py: the per-wallet task and the collection loop           *)
(* ===================================================================== *)

(** The counters and the profile list the consuming side of [run_analysis]
    owns. *)
Module Tally.
Record t : Type := {
  profiles : list Profile.t;
  wallets_checked : nat;
  dropped_pnl : nat;
  dropped_realized : nat;
  dropped_markets : nat;
  dropped_wins : nat;
  completed : nat;
}.

Definition init : t := {|
  profiles := [];
  wallets_checked := 0;
  dropped_pnl := 0;
  dropped_realized := 0;
  dropped_markets := 0;
  dropped_wins := 0;
  completed := 0;
|}.
End Tally.

(** What [run_analysis] returns: [_err(msg)], or the success payload (the
    market echo and the elapsed time left out). *)
Inductive analysis_result : Type :=
  | Failure (error : string)
  | Success (signal : Signal.t) (profiles : list Profile.t)
            (total_holders wallets_checked qualified : nat)
            (dropped_below_pnl dropped_below_realized
             dropped_below_markets dropped_below_wins : nat).

Definition _err (msg : string) : analysis_result := Failure msg.

(** [profiles.sort(key=lambda x: x["composite"], reverse=True)]: a stable
    sort, so equal composites keep their order. *)
Fixpoint insert_desc (p : Profile.t) (sorted : list Profile.t) : list Profile.t :=
  match sorted with
  | [] => [p]
  | q :: rest =>
      if Qleb (Profile.composite q) (Profile.composite p)
      then p :: q :: rest
      else q :: insert_desc p rest
  end.

Definition sort_by_composite (profiles : list Profile.t) : list Profile.t :=
  foldr insert_desc [] profiles.

Section Analyzer.
Context `{RT : Runtime}.

(** [fetch_wallet_stats] of fetcher.py, a network call, and the fixture
    [MOCK_STATS]. *)
Variable fetch_wallet_stats : string -> string -> result (gmap string Q).
Variable MOCK_STATS : gmap string (gmap string Q).

Definition _fetch_and_score_wallet (wallet : string) (position : Position.t)
    (market : Market.t) (market_category : string) (market_start_ts : Z)
    (min_profit : Q) (use_mock : bool)
    : result (string * option Profile.t * gmap string Q) :=
  let fetched :=
    if use_mock then Returns (default ∅ (MOCK_STATS !! wallet))
    else fetch_wallet_stats wallet market_category in
  let stats :=
    match fetched with
    | Returns stats => stats
    | Raises _ => ∅
    end in
  profile ← score_wallet wallet position stats market market_start_ts min_profit;
  Returns (wallet, profile, stats).

(** The [if]/[elif] chain of the loop, "track which filter dropped this
    wallet": the counter it increments, [None] when it increments none. *)
Definition counted_filter (min_profit : Q) (stats : gmap string Q)
    : option hard_filter :=
  let pnl := get stats "total_pnl" 0 in
  let realized := get stats "realized_pnl" 0 in
  let mkts := get stats "markets_traded" 0 in
  let closed_wins := get stats "closed_wins" 0 in
  if Qltb pnl min_profit then Some FilterTotalPnl
  else if Qltb realized 500 then Some FilterRealizedPnl
  else if Qltb mkts 5 then Some FilterMarkets
  else if Qltb closed_wins 3 then Some FilterClosedWins
  else None.

(** [counter += 1] when the chain picked the counter of filter [f]. *)
Definition bump (picked : option hard_filter) (f : hard_filter) (counter : nat)
    : nat :=
  if decide (picked = Some f) then S counter else counter.

(** One round of [for future in as_completed(futures)]; the progress
    callback, which only observes, is left out. *)
Definition collect (min_profit : Q) (st : Tally.t)
    (future : result (string * option Profile.t * gmap string Q)) : Tally.t :=
  let completed := S (Tally.completed st) in
  match future with
  | Raises _ => {|
      Tally.profiles := Tally.profiles st;
      Tally.wallets_checked := Tally.wallets_checked st;
      Tally.dropped_pnl := Tally.dropped_pnl st;
      Tally.dropped_realized := Tally.dropped_realized st;
      Tally.dropped_markets := Tally.dropped_markets st;
      Tally.dropped_wins := Tally.dropped_wins st;
      Tally.completed := completed |}
  | Returns (wallet, profile, stats) =>
      let picked := counted_filter min_profit stats in
      {|
      Tally.profiles :=
        match profile with
        | Some p => Tally.profiles st ++ [p]
        | None => Tally.profiles st
        end;
      Tally.wallets_checked := S (Tally.wallets_checked st);
      Tally.dropped_pnl := bump picked FilterTotalPnl (Tally.dropped_pnl st);
      Tally.dropped_realized :=
        bump picked FilterRealizedPnl (Tally.dropped_realized st);
      Tally.dropped_markets := bump picked FilterMarkets (Tally.dropped_markets st);
      Tally.dropped_wins := bump picked FilterClosedWins (Tally.dropped_wins st);
      Tally.completed := completed |}
  end.

(** [market_start_ts]: the earliest non-zero first trade, by default 90
    days ago. *)
Definition market_start_of (raw_positions : list (string * Position.t)) : Z :=
  match filter (fun ts => ts ≠ 0%Z)
               ((fun wp => Position.first_trade_ts wp.2) <$> raw_positions) with
  | [] => (now - 86400 * 90)%Z
  | ts :: others => foldl Z.min ts others
  end.

(** The message of the run that qualified no wallet. *)
Definition no_wallets_message (min_profit : Q) (st : Tally.t) : string :=
  "No wallets passed all filters (" +:+ pretty (Tally.wallets_checked st)
  +:+ " checked). Dropped: " +:+ pretty (Tally.dropped_pnl st)
  +:+ " below $" +:+ format min_profit ",.0f" +:+ " profit, "
  +:+ pretty (Tally.dropped_realized st) +:+ " below $500 realized, "
  +:+ pretty (Tally.dropped_markets st) +:+ " below 5 markets, "
  +:+ pretty (Tally.dropped_wins st) +:+ " below 3 wins.".

(** Steps 3 and 4 of [run_analysis], from the market of step 1 and the
    positions of step 2.  [raw_positions] lists the wallets in the order in
    which [as_completed] yields their futures. *)
Definition run_analysis (market : Market.t) (market_category : string)
    (raw_positions : list (string * Position.t)) (min_profit : Q)
    (use_mock : bool) : analysis_result :=
  let total_holders := length raw_positions in
  let market_start_ts := market_start_of raw_positions in
  let futures :=
    (fun wp => _fetch_and_score_wallet wp.1 wp.2 market market_category
                 market_start_ts min_profit use_mock) <$> raw_positions in
  let st := foldl (collect min_profit) Tally.init futures in
  match Tally.profiles st with
  | [] => _err (no_wallets_message min_profit st)
  | _ =>
      let profiles := sort_by_composite (Tally.profiles st) in
      Success (aggregate_signal profiles) profiles
              total_holders (Tally.wallets_checked st) (length profiles)
              (Tally.dropped_pnl st) (Tally.dropped_realized st)
              (Tally.dropped_markets st) (Tally.dropped_wins st)
  end.

End Analyzer.

(* ===================================================================== *)
(** ** An executable runtime                                              *)
(* ===================================================================== *)

(** A runtime on which the definitions run.  [sqrt] is exact on the squares
    of rationals and rounds down elsewhere, [round] rounds half to even;
    the logarithms, the exponential and the number formatting are coarse. *)
Module Exec.

Definition sqrt_exec (x : Q) : Q :=
  let r := Qred x in
  Z.sqrt (Qnum r) # Pos.sqrt (Qden r).

Definition log2_exec (x : Q) : Q := inject_Z (Z.log2 (Qfloor x)).

Definition log_exec (x : Q) : Q := log2_exec x * 0.693147.

Definition exp_exec (x : Q) : Q :=
  let t := 1 + x + x * x / 2 + x * x * x / 6 in
  Qmax t 0.

Definition round_exec (x : Q) (ndigits : Z) : Q :=
  let scale := (10 ^ ndigits)%Z in
  let y := x * inject_Z scale in
  let lo := Qfloor y in
  let twice := Qfloor (2 * (y - inject_Z lo)) in
  let up :=
    if Qeq_bool (2 * (y - inject_Z lo)) 1 then Z.odd lo
    else (1 <=? twice)%Z in
  Qred (inject_Z (if up then lo + 1 else lo) / inject_Z scale).

Definition format_exec (x : Q) (spec : string) : string :=
  let tenths := Qfloor (Qabs x * 10) in
  (if Qltb x 0 then "-" else "")
  +:+ pretty (tenths / 10)%Z +:+ "." +:+ pretty (tenths mod 10)%Z.

#[global] Instance runtime : Runtime := {|
  sqrt := sqrt_exec;
  log2 := log2_exec;
  log := log_exec;
  exp := exp_exec;
  round := round_exec;
  format := format_exec;
  now := 1750000000;
  fromisoformat := fun _ => None;
|}.

End Exec.

(* ===================================================================== *)
(** ** The rules as the specification words them                          *)
(* ===================================================================== *)

(** The largest and the second-largest of a list of amounts. *)
Definition largest_two (amounts : list Q) : option (Q * Q) :=
  match amounts with
  | a :: b :: others =>
      Some (foldl (fun '(top, sec) x =>
                     if Qltb top x then (x, top)
                     else if Qltb sec x then (top, x)
                     else (top, sec))
                  (if Qltb a b then (b, a) else (a, b)) others)
  | _ => None
  end.

(** "The single largest invested-value wallet's amount is at least 3 times
    the second-largest's amount", over all the profiles. *)
Definition spec_whale_dominance (profiles : list Profile.t) : bool :=
  match largest_two (Profile.usdc_invested <$> profiles) with
  | Some (top, sec) => Qleb (3 * sec) top
  | None => false
  end.

(** "Grand total floored at 1": the denominator of the vote shares as the
    specification words it. *)
Definition spec_total_floored `{RT : Runtime} (profiles : list Profile.t) : Q :=
  Qmax (yes_votes profiles + no_votes profiles) 1.

(* ===================================================================== *)
(** ** Concrete wallets, positions and profiles                           *)
(* ===================================================================== *)

Module Examples.

Definition market : Market.t := {|
  Market.yes_price := 0.54;
  Market.end_date := "2025-06-30";
|}.

Definition position : Position.t := {|
  Position.outcome := "Yes";
  Position.net_shares := 100;
  Position.avg_entry := 0.5;
  Position.usdc_invested := 50;
  Position.first_trade_ts := 1740000000;
  Position.num_buys := 1;
  Position.num_sells := 0;
|}.

(** A wallet below the default profit threshold. *)
Definition stats_small_profit : gmap string Q :=
  {[ "total_pnl" := 100; "realized_pnl" := 90; "markets_traded" := 40;
     "closed_wins" := 9; "closed_total" := 12 ]}.

(** A profitable wallet none of whose positions has closed. *)
Definition stats_nothing_closed : gmap string Q :=
  {[ "total_pnl" := 10000; "realized_pnl" := 1000; "markets_traded" := 10;
     "closed_wins" := 0; "closed_total" := 0 ]}.

(** A profitable wallet with open positions only, in two markets. *)
Definition stats_open_only : gmap string Q :=
  {[ "total_pnl" := 10000; "realized_pnl" := 0; "markets_traded" := 2;
     "closed_wins" := 0; "closed_total" := 0 ]}.

Definition fetch_open_only (wallet category : string)
    : result (gmap string Q) :=
  Returns stats_open_only.

Definition fetch_fails (wallet category : string) : result (gmap string Q) :=
  Raises RequestException.

(** A scored profile with the fields the aggregation reads. *)
Definition profile (address outcome : string)
    (composite s_conviction usdc_invested : Q) (first_trade_ts : Z)
    : Profile.t := {|
  Profile.address := address;
  Profile.outcome := outcome;
  Profile.composite := composite;
  Profile.composite_base := composite;
  Profile.s_profit := 0.5;
  Profile.s_win_rate := 0.5;
  Profile.s_conviction := s_conviction;
  Profile.s_recency := 0.5;
  Profile.s_timing := 0.5;
  Profile.cat_multiplier := 1;
  Profile.form_multiplier := 1;
  Profile.hold_score := 0.5;
  Profile.total_pnl := 10000;
  Profile.realized_pnl := 1000;
  Profile.win_rate := 0.5;
  Profile.markets_traded := 10;
  Profile.closed_wins := 5;
  Profile.closed_total := 10;
  Profile.total_volume := 1000;
  Profile.recent_pnl := 0;
  Profile.historical_pnl := 0;
  Profile.net_shares := 10;
  Profile.usdc_invested := usdc_invested;
  Profile.avg_entry := 0.5;
  Profile.num_buys := 1;
  Profile.num_sells := 0;
  Profile.first_trade_ts := first_trade_ts;
  Profile.last_trade_ts := 0;
|}.

(** The seconds of a day. *)
Definition day : Z := 86400.

Definition two_profiles : list Profile.t :=
  [ profile "0xA" "Yes" 0.9 0.5 1000 0;
    profile "0xB" "No" 0.8 0.5 100 (2 * day) ].

Definition three_yes : list Profile.t :=
  [ profile "0xA" "Yes" 0.9 0.5 400 0;
    profile "0xB" "YES" 0.8 0.5 100 (2 * day);
    profile "0xC" "yes" 0.7 0.5 100 (4 * day) ].

(** The biggest holder ranks third by composite. *)
Definition whale_ranked_third : list Profile.t :=
  [ profile "0xA" "Yes" 0.9 0.5 100 0;
    profile "0xB" "No" 0.8 0.5 100 (2 * day);
    profile "0xC" "Yes" 0.7 0.5 1000 (4 * day) ].

(** The second-ranked wallet has nothing invested. *)
Definition second_empty : list Profile.t :=
  [ profile "0xA" "Yes" 0.9 0.5 5 0;
    profile "0xB" "No" 0.8 0.5 0 (2 * day);
    profile "0xC" "Yes" 0.7 0.5 0 (4 * day) ].

(** Three small votes, 0.03 each. *)
Definition small_votes : list Profile.t :=
  [ profile "0xA" "Yes" 0.1 0.3 1 0;
    profile "0xB" "No" 0.1 0.3 1 (2 * day);
    profile "0xC" "Yes" 0.1 0.3 1 (4 * day) ].

(** Two wallets on each side. *)
Definition two_against_two : list Profile.t :=
  [ profile "0xA" "Yes" 0.9 0.5 100 0;
    profile "0xB" "No" 0.8 0.5 100 (2 * day);
    profile "0xC" "Yes" 0.7 0.5 100 (4 * day);
    profile "0xD" "No" 0.6 0.5 100 (6 * day) ].

(** Three wallets that entered within the same hour, one a week later. *)
Definition same_hour : list Profile.t :=
  [ profile "0xA" "Yes" 0.9 0.5 100 0;
    profile "0xB" "No" 0.8 0.5 400 600;
    profile "0xC" "Yes" 0.7 0.5 900 1200;
    profile "0xD" "No" 0.6 0.5 100 (7 * day) ].

Definition same_instant : list Profile.t :=
  [ profile "0xA" "Yes" 0.9 0.5 100 1740000000;
    profile "0xB" "No" 0.8 0.5 400 1740000000;
    profile "0xC" "Yes" 0.7 0.5 900 1740000000 ].

End Examples.

(* ===================================================================== *)
(** ** fetcher.py: build_positions                                        *)
(* ===================================================================== *)

(** [str.upper()], on the ASCII letters. *)
Definition upper_ascii (c : ascii) : ascii :=
  let n := nat_of_ascii c in
  if Nat.leb 97 n && Nat.leb n 122 then ascii_of_nat (n - 32) else c.

Fixpoint upper (s : string) : string :=
  match s with
  | EmptyString => EmptyString
  | String c rest => String (upper_ascii c) (upper rest)
  end.

(** One trade of the [/trades] feed, a JSON object: [None] is a missing key
    (for the keys read with [or], also a null); numbers are taken as
    already parsed. *)
Module Trade.
Record t : Type := {
  proxyWallet : option string;
  side : option string;
  size : option Q;
  price : option Q;
  usdcSize : option Q;
  outcome : option string;
  outcomeIndex : option Z;
  timestamp : option Z;
}.
End Trade.

(** The per-wallet dict [build_positions] accumulates. *)
Module Holding.
Record t : Type := {
  outcome : string;
  outcome_index : Z;
  net_shares : Q;
  usdc_invested : Q;
  total_buy_shares : Q;
  avg_entry : Q;
  first_trade_ts : Z;
  last_trade_ts : Z;
  num_buys : Z;
  num_sells : Z;
}.
End Holding.

(** The dict created when a wallet is seen for the first time. *)
Definition new_holding (outcome : string) (outcome_idx ts : Z) : Holding.t := {|
  Holding.outcome := outcome;
  Holding.outcome_index := outcome_idx;
  Holding.net_shares := 0;
  Holding.usdc_invested := 0;
  Holding.total_buy_shares := 0;
  Holding.avg_entry := 0;
  Holding.first_trade_ts := ts;
  Holding.last_trade_ts := ts;
  Holding.num_buys := 0;
  Holding.num_sells := 0;
|}.

(** The updates of one trade on the wallet's dict [w]. *)
Definition apply_trade (w : Holding.t) (side outcome : string)
    (size usdc : Q) (outcome_idx ts : Z) : Holding.t :=
  let first := if (ts =? 0)%Z then Holding.first_trade_ts w
               else Z.min (Holding.first_trade_ts w) ts in
  let last := if (ts =? 0)%Z then Holding.last_trade_ts w
              else Z.max (Holding.last_trade_ts w) ts in
  if String.eqb side "BUY" then {|
    Holding.outcome := outcome;
    Holding.outcome_index := outcome_idx;
    Holding.net_shares := Holding.net_shares w + size;
    Holding.usdc_invested := Holding.usdc_invested w + usdc;
    Holding.total_buy_shares := Holding.total_buy_shares w + size;
    Holding.avg_entry := Holding.avg_entry w;
    Holding.first_trade_ts := first;
    Holding.last_trade_ts := last;
    Holding.num_buys := (Holding.num_buys w + 1)%Z;
    Holding.num_sells := Holding.num_sells w;
  |}
  else if String.eqb side "SELL" then {|
    Holding.outcome := Holding.outcome w;
    Holding.outcome_index := Holding.outcome_index w;
    Holding.net_shares := Holding.net_shares w - size;
    Holding.usdc_invested := Holding.usdc_invested w;
    Holding.total_buy_shares := Holding.total_buy_shares w;
    Holding.avg_entry := Holding.avg_entry w;
    Holding.first_trade_ts := first;
    Holding.last_trade_ts := last;
    Holding.num_buys := Holding.num_buys w;
    Holding.num_sells := (Holding.num_sells w + 1)%Z;
  |}
  else {|
    Holding.outcome := Holding.outcome w;
    Holding.outcome_index := Holding.outcome_index w;
    Holding.net_shares := Holding.net_shares w;
    Holding.usdc_invested := Holding.usdc_invested w;
    Holding.total_buy_shares := Holding.total_buy_shares w;
    Holding.avg_entry := Holding.avg_entry w;
    Holding.first_trade_ts := first;
    Holding.last_trade_ts := last;
    Holding.num_buys := Holding.num_buys w;
    Holding.num_sells := Holding.num_sells w;
  |}.

(** One round of [for t in trades]. *)
Definition record_trade (raw : gmap string Holding.t) (t : Trade.t)
    : gmap string Holding.t :=
  let wallet := default "" (Trade.proxyWallet t) in
  if String.eqb wallet "" then raw
  else
    let side := upper (default "" (Trade.side t)) in
    let size := default 0 (Trade.size t) in
    let price := default 0 (Trade.price t) in
    let usdc :=
      if Qeq_bool (default 0 (Trade.usdcSize t)) 0 then price * size
      else default 0 (Trade.usdcSize t) in
    let outcome := default "Yes" (Trade.outcome t) in
    let outcome_idx := default 0%Z (Trade.outcomeIndex t) in
    let ts := default 0%Z (Trade.timestamp t) in
    let w :=
      match raw !! wallet with
      | Some w => w
      | None => new_holding outcome outcome_idx ts
      end in
    <[wallet := apply_trade w side outcome size usdc outcome_idx ts]> raw.

(** [w["avg_entry"] = w["usdc_invested"] / w["total_buy_shares"]] when the
    wallet bought anything. *)
Definition set_avg_entry (w : Holding.t) : Holding.t :=
  if Qltb 0 (Holding.total_buy_shares w) then {|
    Holding.outcome := Holding.outcome w;
    Holding.outcome_index := Holding.outcome_index w;
    Holding.net_shares := Holding.net_shares w;
    Holding.usdc_invested := Holding.usdc_invested w;
    Holding.total_buy_shares := Holding.total_buy_shares w;
    Holding.avg_entry := Holding.usdc_invested w / Holding.total_buy_shares w;
    Holding.first_trade_ts := Holding.first_trade_ts w;
    Holding.last_trade_ts := Holding.last_trade_ts w;
    Holding.num_buys := Holding.num_buys w;
    Holding.num_sells := Holding.num_sells w;
  |}
  else w.

(** [build_positions]: the wallets holding more than 5 shares.  The dict is
    a finite map; the order of its items is not modelled. *)
Definition build_positions (trades : list Trade.t) : gmap string Holding.t :=
  let raw := foldl record_trade ∅ trades in
  filter (fun kv => Qltb 5 (Holding.net_shares kv.2)) (set_avg_entry <$> raw).

(** The keys of a position that [score_wallet] reads. *)
Definition position_of (w : Holding.t) : Position.t := {|
  Position.outcome := Holding.outcome w;
  Position.net_shares := Holding.net_shares w;
  Position.avg_entry := Holding.avg_entry w;
  Position.usdc_invested := Holding.usdc_invested w;
  Position.first_trade_ts := Holding.first_trade_ts w;
  Position.num_buys := Holding.num_buys w;
  Position.num_sells := Holding.num_sells w;
|}.

(** What the loop of [build_positions] keeps true of every wallet's dict. *)
Definition holding_ok (w : Holding.t) : Prop :=
  (Holding.first_trade_ts w <= Holding.last_trade_ts w)%Z
  /\ Holding.avg_entry w = 0
  /\ (0 <= Holding.num_buys w)%Z
  /\ (0 <= Holding.num_sells w)%Z.

(** What it keeps true when no trade has a negative size. *)
Definition holding_bought (w : Holding.t) : Prop :=
  Holding.net_shares w <= Holding.total_buy_shares w
  /\ 0 <= Holding.total_buy_shares w
  /\ (Holding.num_buys w = 0%Z -> Holding.total_buy_shares w == 0).

(* ===================================================================== *)
(** ** fetcher.py: fetch_wallet_stats                                     *)
(* ===================================================================== *)

Definition RECENT_WINDOW_DAYS : Z := 90.

(** The ASCII whitespace [str.strip()] removes: the space, the controls
    9 to 13 and the separators 28 to 31. *)
Definition is_space (c : ascii) : bool :=
  let n := nat_of_ascii c in
  Nat.eqb n 32 || (Nat.leb 9 n && Nat.leb n 13)
  || (Nat.leb 28 n && Nat.leb n 31).

Fixpoint lstrip (s : string) : string :=
  match s with
  | EmptyString => EmptyString
  | String c rest => if is_space c then lstrip rest else s
  end.

(** [str.strip()], on the ASCII whitespace. *)
Definition strip (s : string) : string :=
  String.rev (lstrip (String.rev (lstrip s))).

(** [end.replace("Z", "+00:00")] *)
Fixpoint replace_Z (s : string) : string :=
  match s with
  | EmptyString => EmptyString
  | String c rest =>
      if Ascii.eqb c "Z" then "+00:00" +:+ replace_Z rest
      else String c (replace_Z rest)
  end.

(** One position of the [/positions] feed, a JSON object: [None] is a
    missing key or a null; numbers are taken as already parsed, and
    [redeemable] is the truth value of the key. *)
Module ApiPosition.
Record t : Type := {
  cashPnl : option Q;
  realizedPnl : option Q;
  currentValue : option Q;
  category : option string;
  conditionId : option string;
  redeemable : bool;
  endDate : option string;
}.
End ApiPosition.

(** The local variables of the loop over the positions. *)
Module Acc.
Record t : Type := {
  total_pnl : Q;
  total_vol : Q;
  realized_pnl : Q;
  wins : Z;
  closed : Z;
  closed_wins : Z;
  market_ids : gset string;
  last_ts : Z;
  recent_pnl : Q;
  historical_pnl : Q;
  category_pnl : Q;
  category_total : Q;
}.

Definition init : t := {|
  total_pnl := 0;
  total_vol := 0;
  realized_pnl := 0;
  wins := 0;
  closed := 0;
  closed_wins := 0;
  market_ids := ∅;
  last_ts := 0;
  recent_pnl := 0;
  historical_pnl := 0;
  category_pnl := 0;
  category_total := 0;
|}.
End Acc.

Section WalletStats.
Context `{RT : Runtime}.

(** One round of [for p in positions]. *)
Definition add_position (target_category : string) (cutoff : Z) (a : Acc.t)
    (p : ApiPosition.t) : Acc.t :=
  let cash := default 0 (ApiPosition.cashPnl p) in
  let real := default 0 (ApiPosition.realizedPnl p) in
  let cur := default 0 (ApiPosition.currentValue p) in
  let pos_category := lower (strip (default "" (ApiPosition.category p))) in
  let in_category :=
    negb (String.eqb target_category "")
    && String.eqb pos_category (lower target_category) in
  let cid := default "" (ApiPosition.conditionId p) in
  let is_closed := ApiPosition.redeemable p || negb (Qeq_bool real 0) in
  let won := is_closed && Qltb 0 real in
  let parsed :=
    let end_ := default "" (ApiPosition.endDate p) in
    if String.eqb end_ "" then None else fromisoformat (replace_Z end_) in
  let end_ts := default 0%Z parsed in
  let realized_now := is_closed && negb (Qeq_bool real 0) in
  {|
    Acc.total_pnl := Acc.total_pnl a + (cash + real);
    Acc.total_vol := Acc.total_vol a + cur;
    Acc.realized_pnl := Acc.realized_pnl a + real;
    Acc.wins := if won then (Acc.wins a + 1)%Z else Acc.wins a;
    Acc.closed := if is_closed then (Acc.closed a + 1)%Z else Acc.closed a;
    Acc.closed_wins :=
      if won then (Acc.closed_wins a + 1)%Z else Acc.closed_wins a;
    Acc.market_ids :=
      if String.eqb cid "" then Acc.market_ids a
      else {[cid]} ∪ Acc.market_ids a;
    Acc.last_ts :=
      match parsed with
      | Some ts => Z.max (Acc.last_ts a) ts
      | None => Acc.last_ts a
      end;
    Acc.recent_pnl :=
      if realized_now && (cutoff <=? end_ts)%Z then Acc.recent_pnl a + real
      else Acc.recent_pnl a;
    Acc.historical_pnl :=
      if realized_now && negb (cutoff <=? end_ts)%Z
      then Acc.historical_pnl a + real
      else Acc.historical_pnl a;
    Acc.category_pnl :=
      if in_category then Acc.category_pnl a + (cash + real)
      else Acc.category_pnl a;
    Acc.category_total := Acc.category_total a + (cash + real);
  |}.

(** The dict [fetch_wallet_stats] returns for the loop's final state. *)
Definition stats_of (a : Acc.t) : gmap string Q :=
  {[ "total_pnl" := Acc.total_pnl a;
     "win_rate" :=
       (if (0 <? Acc.closed a)%Z then ofZ (Acc.wins a) / ofZ (Acc.closed a)
        else 0.5);
     "markets_traded" :=
       (if (size (Acc.market_ids a) =? 0)%nat
        then ofZ (Z.max (Acc.closed a) 1)
        else ofnat (size (Acc.market_ids a)));
     "total_volume" := Acc.total_vol a;
     "last_trade_ts" :=
       (if (Acc.last_ts a =? 0)%Z then ofZ (now - 86400 * 30)
        else ofZ (Acc.last_ts a));
     "realized_pnl" := Acc.realized_pnl a;
     "closed_wins" := ofZ (Acc.closed_wins a);
     "closed_total" := ofZ (Acc.closed a);
     "recent_pnl" := Acc.recent_pnl a;
     "historical_pnl" := Acc.historical_pnl a;
     "category_pnl" := Acc.category_pnl a;
     "category_total" := Acc.category_total a ]}.

(** [fetch_wallet_stats], from the outcome of the HTTP request: an
    exception, or the status code with the decoded body ([r.json() or
    []]). *)
Definition wallet_stats_of_response
    (response : result (Z * list ApiPosition.t)) (target_category : string)
    : gmap string Q :=
  match response with
  | Raises _ => ∅
  | Returns (status_code, positions) =>
      if negb (status_code =? 200)%Z then ∅
      else
        match positions with
        | [] => ∅
        | _ =>
            let cutoff := (now - RECENT_WINDOW_DAYS * 86400)%Z in
            stats_of (foldl (add_position target_category cutoff)
                            Acc.init positions)
        end
  end.

End WalletStats.

(** [target_category and pos_category == target_category.lower()] *)
Definition matches_category (target_category : string) (p : ApiPosition.t)
    : bool :=
  negb (String.eqb target_category "")
  && String.eqb (lower (strip (default "" (ApiPosition.category p))))
                (lower target_category).

(** What the loop of [fetch_wallet_stats] keeps true of its variables. *)
Definition acc_ok (a : Acc.t) : Prop :=
  Acc.category_total a = Acc.total_pnl a
  /\ Acc.realized_pnl a == Acc.recent_pnl a + Acc.historical_pnl a
  /\ (0 <= Acc.closed_wins a <= Acc.closed a)%Z
  /\ Acc.wins a = Acc.closed_wins a
  /\ (Acc.closed a = 0%Z -> Acc.realized_pnl a == 0).

(* ===================================================================== *)
(** ** Notions used to state the properties of the collection loop        *)
(* ===================================================================== *)

(** Two tallies with the same counters and the same profiles up to their
    order. *)
Definition same_tally (a b : Tally.t) : Prop :=
  Tally.profiles a ≡ₚ Tally.profiles b
  /\ Tally.wallets_checked a = Tally.wallets_checked b
  /\ Tally.dropped_pnl a = Tally.dropped_pnl b
  /\ Tally.dropped_realized a = Tally.dropped_realized b
  /\ Tally.dropped_markets a = Tally.dropped_markets b
  /\ Tally.dropped_wins a = Tally.dropped_wins b
  /\ Tally.completed a = Tally.completed b.

(** The sum of the four drop counters. *)
Definition dropped_total (st : Tally.t) : nat :=
  (Tally.dropped_pnl st + Tally.dropped_realized st
   + Tally.dropped_markets st + Tally.dropped_wins st)%nat.

(** Ranked by composite, best first. *)
Definition ranked (profiles : list Profile.t) : Prop :=
  StronglySorted (fun p q => Profile.composite q <= Profile.composite p)
                 profiles.

(* ===================================================================== *)
(** ** Concrete trades, API positions and statistics                      *)
(* ===================================================================== *)

Module Samples.

Definition trade (wallet side : string) (size price : Q) (ts : Z) : Trade.t := {|
  Trade.proxyWallet := Some wallet;
  Trade.side := Some side;
  Trade.size := Some size;
  Trade.price := Some price;
  Trade.usdcSize := None;
  Trade.outcome := Some "Yes";
  Trade.outcomeIndex := Some 0%Z;
  Trade.timestamp := Some ts;
|}.

(** Wallet 0xA buys 20 shares and sells 4; wallet 0xB buys 3. *)
Definition trades : list Trade.t :=
  [ trade "0xA" "buy" 10 0.5 1740000100;
    trade "0xB" "BUY" 3 0.5 1740000150;
    trade "0xA" "BUY" 10 0.7 1740000200;
    trade "0xA" "SELL" 4 0.6 1740000300 ].

Definition api_position (cash real : Q) (category condition : string)
    (redeemable : bool) : ApiPosition.t := {|
  ApiPosition.cashPnl := Some cash;
  ApiPosition.realizedPnl := Some real;
  ApiPosition.currentValue := Some 100;
  ApiPosition.category := Some category;
  ApiPosition.conditionId := Some condition;
  ApiPosition.redeemable := redeemable;
  ApiPosition.endDate := None;
|}.

(** Two positions in politics, one of them closed with a profit. *)
Definition api_positions : list ApiPosition.t :=
  [ api_position 300 0 " Politics " "0xc1" false;
    api_position 0 700 "politics" "0xc2" true ].

(** A wallet with a loss overall and 600 of realized profit. *)
Definition stats_overall_loss : gmap string Q :=
  {[ "total_pnl" := -100; "realized_pnl" := 600; "markets_traded" := 10;
     "closed_wins" := 0; "closed_total" := 0 ]}.

Definition returned (wallet : string) (stats : gmap string Q)
    : result (string * option Profile.t * gmap string Q) :=
  Returns (wallet, None, stats).

End Samples.

(* ===================================================================== *)
(** ** Comparisons                                                        *)
(* ===================================================================== *)

Lemma Qltb_lt (x y : Q) : Qltb x y = true <-> x < y.
Proof.
  unfold Qltb. rewrite negb_true_iff.
  split; intros H.
  - apply Qnot_le_lt. intros Hle. apply Qle_bool_iff in Hle. congruence.
  - destruct (Qle_bool y x) eqn:E; [|reflexivity].
    apply Qle_bool_iff in E. exfalso. apply (Qlt_not_le _ _ H E).
Qed.

Lemma Qltb_ge (x y : Q) : Qltb x y = false <-> y <= x.
Proof.
  unfold Qltb. rewrite negb_false_iff. apply Qle_bool_iff.
Qed.

Lemma Qleb_le (x y : Q) : Qleb x y = true <-> x <= y.
Proof. apply Qle_bool_iff. Qed.

Lemma Qleb_gt (x y : Q) : Qleb x y = false <-> y < x.
Proof.
  unfold Qleb. split; intros H.
  - apply Qnot_le_lt. intros Hle. apply Qle_bool_iff in Hle. congruence.
  - destruct (Qle_bool x y) eqn:E; [|reflexivity].
    apply Qle_bool_iff in E. exfalso. apply (Qlt_not_le _ _ H E).
Qed.

(* ===================================================================== *)
(** ** The hard filters and the neutral multipliers                       *)
(* ===================================================================== *)

Section ScoringFacts.
Context `{RT : Runtime}.

(** [score_profit] does not raise once the profit is non-negative. *)
Lemma score_profit_returns (pnl min_profit : Q) :
  0 <= pnl -> exists s, score_profit pnl min_profit = Returns s.
Proof.
  intros Hpnl. unfold score_profit.
  destruct (Qltb pnl min_profit); [eauto|].
  unfold math_sqrt.
  assert (Hge : Qltb (pnl / 200000) 0 = false).
  { apply Qltb_ge. apply Qle_shift_div_l; [reflexivity | lra]. }
  rewrite Hge. simpl. eauto.
Qed.

(** [score_wallet] returns the rejection marker exactly when one of the
    four hard filters rejects. *)
Lemma score_wallet_rejects_iff (wallet : string) (position : Position.t)
    (stats : gmap string Q) (market : Market.t) (market_start_ts : Z)
    (min_profit : Q) :
  score_wallet wallet position stats market market_start_ts min_profit
    = Returns None
  <-> is_Some (rejecting_filter stats min_profit).
Proof.
  unfold score_wallet, rejecting_filter, effective_realized.
  destruct (Qltb (get stats "total_pnl" 0) min_profit); [by split; eauto|].
  destruct (Qltb (if Qltb 0 (get stats "realized_pnl" 0) then _ else _) _);
    [by split; eauto|].
  destruct (Qltb (get stats "markets_traded" 0) MIN_MARKETS); [by split; eauto|].
  destruct (Qltb 0 (get stats "closed_total" 0) && _); [by split; eauto|].
  split.
  - destruct (score_profit _ _); simpl; discriminate.
  - intros [f Hf]. discriminate.
Qed.

End ScoringFacts.

Section FilterTheorems.
Context `{RT : Runtime}.

(** C3.  No-data neutrality of the two multipliers: with a category total
    that is zero or negative the category-expertise multiplier is exactly
    1.0, whatever the category profit; with a historical and a recent profit
    that are both zero or negative the recent-form multiplier is exactly
    1.0. *)
Theorem multipliers_neutral_without_data
    (category_pnl category_total recent_pnl historical_pnl : Q) :
  category_total <= 0 ->
  historical_pnl <= 0 ->
  recent_pnl <= 0 ->
  compute_category_multiplier category_pnl category_total = 1
  /\ compute_recent_form_multiplier recent_pnl historical_pnl = 1.
Proof.
  intros Hct Hh Hr. split.
  - unfold compute_category_multiplier.
    apply Qleb_le in Hct. by rewrite Hct.
  - unfold compute_recent_form_multiplier.
    apply Qleb_le in Hh, Hr. by rewrite Hh, Hr.
Qed.

(** C6.  A wallet whose total profit is below the minimum-profit threshold
    is rejected whatever its other statistics and its position are; and for
    a wallet without closed positions the closed-wins filter is never the
    one that rejects: when the three filters before it pass, the wallet is
    not rejected, however low its closed wins. *)
Theorem profit_gate_rejects_and_no_closed_data_passes
    (wallet : string) (position : Position.t) (stats : gmap string Q)
    (market : Market.t) (market_start_ts : Z) (min_profit : Q) :
  (get stats "total_pnl" 0 < min_profit ->
   score_wallet wallet position stats market market_start_ts min_profit
     = Returns None)
  /\ (get stats "closed_total" 0 == 0 ->
      rejecting_filter stats min_profit <> Some FilterClosedWins
      /\ (min_profit <= get stats "total_pnl" 0 ->
          MIN_REALIZED_PNL <= effective_realized stats ->
          MIN_MARKETS <= get stats "markets_traded" 0 ->
          score_wallet wallet position stats market market_start_ts min_profit
            <> Returns None)).
Proof.
  split.
  - intros Hlt. unfold score_wallet.
    apply Qltb_lt in Hlt. by rewrite Hlt.
  - intros Hzero.
    assert (Hct : Qltb 0 (get stats "closed_total" 0) = false).
    { apply Qltb_ge. rewrite Hzero. apply Qle_refl. }
    assert (Hnot : rejecting_filter stats min_profit <> Some FilterClosedWins).
    { unfold rejecting_filter. rewrite Hct. simpl.
      repeat match goal with |- context [if ?b then _ else _] => destruct b end;
        discriminate. }
    split; [exact Hnot|].
    intros Hpnl Hreal Hmk Hrej.
    apply score_wallet_rejects_iff in Hrej. destruct Hrej as [f Hf].
    unfold rejecting_filter in Hf.
    apply Qltb_ge in Hpnl, Hreal, Hmk.
    rewrite Hpnl, Hreal, Hmk, Hct in Hf. discriminate.
Qed.

(** C10.  A wallet whose statistics lookup failed is evaluated on the empty
    statistics: for a positive minimum-profit threshold [score_wallet]
    returns the rejection marker, so the per-wallet task returns the wallet
    with no profile and the empty statistics, without raising. *)
Theorem empty_stats_are_rejected
    (fetch_wallet_stats : string -> string -> result (gmap string Q))
    (MOCK_STATS : gmap string (gmap string Q))
    (wallet : string) (position : Position.t) (market : Market.t)
    (market_category : string) (market_start_ts : Z) (min_profit : Q) :
  0 < min_profit ->
  (fetch_wallet_stats wallet market_category = Returns ∅
   \/ exists e, fetch_wallet_stats wallet market_category = Raises e) ->
  score_wallet wallet position ∅ market market_start_ts min_profit
    = Returns None
  /\ _fetch_and_score_wallet fetch_wallet_stats MOCK_STATS wallet position
       market market_category market_start_ts min_profit false
     = Returns (wallet, None, ∅).
Proof.
  intros Hpos Hfetch.
  assert (Hrej : score_wallet wallet position ∅ market market_start_ts min_profit
                 = Returns None).
  { unfold score_wallet, get. rewrite lookup_empty.
    apply Qltb_lt in Hpos. by rewrite Hpos. }
  split; [exact Hrej|].
  unfold _fetch_and_score_wallet.
  destruct Hfetch as [-> | [e ->]]; by rewrite Hrej.
Qed.

End FilterTheorems.

Lemma multipliers_neutral_without_data_witness :
  (0 <= 0 /\ -250 <= 0 /\ -40 <= 0)
  /\ compute_category_multiplier 300 0 = 1
  /\ compute_recent_form_multiplier (-40) (-250) = 1.
Proof.
  assert (H1 : 0 <= 0) by (apply Qle_bool_imp_le; reflexivity).
  assert (H2 : -250 <= 0) by (apply Qle_bool_imp_le; reflexivity).
  assert (H3 : -40 <= 0) by (apply Qle_bool_imp_le; reflexivity).
  split; [auto|].
  exact (multipliers_neutral_without_data 300 0 (-40) (-250) H1 H2 H3).
Defined.

Lemma profit_gate_rejects_and_no_closed_data_passes_witness :
  (get Examples.stats_small_profit "total_pnl" 0 < MIN_TOTAL_PNL
   /\ score_wallet "0xA" Examples.position Examples.stats_small_profit
        Examples.market 1700000000 MIN_TOTAL_PNL = Returns None)
  /\ (get Examples.stats_nothing_closed "closed_total" 0 == 0
      /\ score_wallet "0xB" Examples.position Examples.stats_nothing_closed
           Examples.market 1700000000 MIN_TOTAL_PNL <> Returns None).
Proof.
  split.
  - assert (H : get Examples.stats_small_profit "total_pnl" 0 < MIN_TOTAL_PNL)
      by (vm_compute; reflexivity).
    split; [exact H|].
    exact (proj1 (profit_gate_rejects_and_no_closed_data_passes "0xA"
                    Examples.position Examples.stats_small_profit
                    Examples.market 1700000000 MIN_TOTAL_PNL) H).
  - assert (H : get Examples.stats_nothing_closed "closed_total" 0 == 0)
      by (vm_compute; reflexivity).
    split; [exact H|].
    apply (proj2 (profit_gate_rejects_and_no_closed_data_passes "0xB"
                    Examples.position Examples.stats_nothing_closed
                    Examples.market 1700000000 MIN_TOTAL_PNL) H);
      vm_compute; discriminate.
Defined.

Lemma empty_stats_are_rejected_witness :
  0 < MIN_TOTAL_PNL
  /\ score_wallet "0xA" Examples.position ∅ Examples.market 1700000000
       MIN_TOTAL_PNL = Returns None
  /\ _fetch_and_score_wallet Examples.fetch_fails ∅ "0xA" Examples.position
       Examples.market "Crypto" 1700000000 MIN_TOTAL_PNL false
     = Returns ("0xA", None, ∅).
Proof.
  assert (H : 0 < MIN_TOTAL_PNL) by (vm_compute; reflexivity).
  split; [exact H|].
  apply (empty_stats_are_rejected Examples.fetch_fails ∅ "0xA" Examples.position
           Examples.market "Crypto" 1700000000 MIN_TOTAL_PNL H).
  right. exists RequestException. reflexivity.
Defined.

(* ===================================================================== *)
(** ** The signal record                                                  *)
(* ===================================================================== *)

Section SignalFacts.
Context `{RT : Runtime}.

Lemma aggregate_signal_few (profiles : list Profile.t) :
  (length profiles < 3)%nat ->
  aggregate_signal profiles
  = _empty_signal ("Only " +:+ pretty (length profiles)
                   +:+ " qualified wallets — need 3+ for a signal").
Proof.
  intros Hlen. unfold aggregate_signal.
  destruct (Nat.ltb_spec (length profiles) 3) as [_|Hge]; [reflexivity | lia].
Qed.

Lemma aggregate_signal_enough (profiles : list Profile.t) :
  (3 <= length profiles)%nat ->
  aggregate_signal profiles = {|
    Signal.signal := signal profiles;
    Signal.strength := default "N/A" (strength profiles);
    Signal.confidence := round (confidence profiles) 1;
    Signal.reasoning := reasoning profiles;
    Signal.yes_pct := round (yes_pct profiles * 100) 1;
    Signal.no_pct := round (no_pct profiles * 100) 1;
    Signal.yes_count := length (yes_profiles profiles);
    Signal.no_count := length (no_profiles profiles);
    Signal.total_qualified := length profiles;
    Signal.top5_consensus := top_label profiles;
    Signal.whale_warning := whale_warning profiles;
    Signal.cluster_warning := cluster_warning profiles;
    Signal.clusters_found := length (detect_clusters profiles);
  |}.
Proof.
  intros Hlen. unfold aggregate_signal.
  destruct (Nat.ltb_spec (length profiles) 3) as [Hlt|_]; [lia | reflexivity].
Qed.

Lemma total_nonzero (profiles : list Profile.t) : ~ total profiles == 0.
Proof.
  unfold total.
  destruct (Qeq_bool (yes_votes profiles + no_votes profiles) 0) eqn:E.
  - discriminate.
  - apply Qeq_bool_neq. exact E.
Qed.

End SignalFacts.

Lemma top5_counts (profiles : list Profile.t) :
  (top5_yes profiles + top5_no profiles = Nat.min 5 (length profiles))%nat.
Proof.
  unfold top5_no, top5_yes, top5.
  pose proof (length_filter (fun p => is_yes (Profile.outcome p))
                (take 5 profiles)) as Hle.
  rewrite length_take in *. lia.
Qed.

Section SignalTheorems.
Context `{RT : Runtime}.

(** C9.  With fewer than 3 profiles the aggregator returns the no-signal
    result: the signal is NO_CLEAR_SIGNAL, the confidence is 0.0, the
    rationale says how many wallets qualified and that 3 are needed, and
    the vote shares, the counts and the warnings are zero or absent. *)
Theorem too_few_profiles_give_no_signal (profiles : list Profile.t) :
  (length profiles < 3)%nat ->
  let s := aggregate_signal profiles in
  Signal.signal s = "NO_CLEAR_SIGNAL"
  /\ Signal.strength s = "N/A"
  /\ Signal.confidence s = 0
  /\ Signal.reasoning s
     = "Only " +:+ pretty (length profiles)
       +:+ " qualified wallets — need 3+ for a signal"
  /\ Signal.reasoning s <> ""
  /\ Signal.yes_pct s = 0
  /\ Signal.no_pct s = 0
  /\ Signal.yes_count s = 0%nat
  /\ Signal.no_count s = 0%nat
  /\ Signal.total_qualified s = 0%nat
  /\ Signal.top5_consensus s = "N/A"
  /\ Signal.whale_warning s = None
  /\ Signal.cluster_warning s = None
  /\ Signal.clusters_found s = 0%nat.
Proof.
  intros Hlen s. subst s. rewrite (aggregate_signal_few _ Hlen).
  repeat split. discriminate.
Qed.

(** The whale-dominance check reads the first two profiles of the list: with
    at least 3 profiles the warning is set exactly when the second profile's
    invested value is positive and the first profile's invested value
    divided by it is at least 3; with fewer than 3 profiles it is never
    set. *)
Lemma whale_warning_first_two (profiles : list Profile.t) :
  match profiles with
  | p0 :: p1 :: _ :: _ =>
      is_Some (Signal.whale_warning (aggregate_signal profiles))
      <-> 0 < Profile.usdc_invested p1
          /\ 3 <= Profile.usdc_invested p0 / Profile.usdc_invested p1
  | _ => Signal.whale_warning (aggregate_signal profiles) = None
  end.
Proof.
  destruct profiles as [|p0 [|p1 [|p2 rest]]];
    try (rewrite aggregate_signal_few by (simpl; lia); reflexivity).
  rewrite aggregate_signal_enough by (simpl; lia).
  cbn [Signal.whale_warning whale_warning].
  destruct (Qltb 0 (Profile.usdc_invested p1)) eqn:Hsec;
    destruct (Qleb 3 (Profile.usdc_invested p0 / Profile.usdc_invested p1))
      eqn:Hratio; cbn [andb].
  - apply Qltb_lt in Hsec. apply Qleb_le in Hratio. split; eauto.
  - apply Qleb_gt in Hratio. split; [intros [w Hw]; discriminate|].
    intros [_ Hge]. exfalso. apply (Qlt_not_le _ _ Hratio Hge).
  - apply Qltb_ge in Hsec. split; [intros [w Hw]; discriminate|].
    intros [Hgt _]. exfalso. apply (Qlt_not_le _ _ Hgt Hsec).
  - apply Qltb_ge in Hsec. split; [intros [w Hw]; discriminate|].
    intros [Hgt _]. exfalso. apply (Qlt_not_le _ _ Hgt Hsec).
Qed.

(** A list led by its two largest holders: they are its largest two. *)
Lemma largest_two_leading (top sec : Q) (others : list Q) :
  sec <= top ->
  Forall (fun x => x <= sec) others ->
  largest_two (top :: sec :: others) = Some (top, sec).
Proof.
  intros Hle Hothers. unfold largest_two.
  rewrite (proj2 (Qltb_ge top sec) Hle). f_equal.
  induction Hothers as [|x others Hx _ IH]; [reflexivity|].
  simpl.
  rewrite (proj2 (Qltb_ge top x) (Qle_trans _ _ _ Hx Hle)).
  rewrite (proj2 (Qltb_ge sec x) Hx). exact IH.
Qed.

(** C2, as the code has it.  For a list of at least 3 profiles whose first two
    profiles hold its largest and its second-largest invested value, the
    whale-dominance warning is set if and only if the second-largest
    invested value is positive and the largest is at least 3 times the
    second largest. *)
Theorem whale_warning_of_leading_holders (p0 p1 : Profile.t)
    (others : list Profile.t) :
  (1 <= length others)%nat ->
  Profile.usdc_invested p1 <= Profile.usdc_invested p0 ->
  Forall (fun p => Profile.usdc_invested p <= Profile.usdc_invested p1) others ->
  let profiles := p0 :: p1 :: others in
  largest_two (Profile.usdc_invested <$> profiles)
  = Some (Profile.usdc_invested p0, Profile.usdc_invested p1)
  /\ (is_Some (Signal.whale_warning (aggregate_signal profiles))
      <-> 0 < Profile.usdc_invested p1 /\ spec_whale_dominance profiles = true).
Proof.
  intros Hlen Hle Hothers profiles.
  assert (Htwo : largest_two (Profile.usdc_invested <$> profiles)
                 = Some (Profile.usdc_invested p0, Profile.usdc_invested p1)).
  { subst profiles. rewrite !fmap_cons. apply largest_two_leading; [exact Hle|].
    by apply Forall_fmap. }
  split; [exact Htwo|].
  unfold spec_whale_dominance. rewrite Htwo.
  pose proof (whale_warning_first_two profiles) as Hcode. subst profiles.
  destruct others as [|p2 others]; [simpl in Hlen; lia|].
  rewrite Hcode. rewrite Qleb_le.
  split; intros [Hpos Hratio]; (split; [exact Hpos|]).
  - pose proof (Qmult_le_compat_r _ _ _ Hratio (Qlt_le_weak _ _ Hpos)) as Hmul.
    assert (Hcancel : Profile.usdc_invested p0 / Profile.usdc_invested p1
                      * Profile.usdc_invested p1 == Profile.usdc_invested p0).
    { field. intros Hz. rewrite Hz in Hpos. by apply Qlt_irrefl in Hpos. }
    by rewrite Hcancel in Hmul.
  - by apply Qle_shift_div_l.
Qed.

(** C7, as the code has it.  With at least 3 profiles each side's reported
    vote share is that side's vote total divided by the grand total of both
    sides' votes, in percent rounded to one decimal; the denominator is the
    grand total itself, replaced by 1 when the grand total is zero, so it is
    never zero. *)
Theorem vote_shares_divide_by_guarded_total (profiles : list Profile.t) :
  (3 <= length profiles)%nat ->
  let s := aggregate_signal profiles in
  let grand := yes_votes profiles + no_votes profiles in
  Signal.yes_pct s = round (yes_votes profiles / total profiles * 100) 1
  /\ Signal.no_pct s = round (no_votes profiles / total profiles * 100) 1
  /\ (grand == 0 -> total profiles = 1)
  /\ (~ grand == 0 -> total profiles = grand)
  /\ ~ total profiles == 0.
Proof.
  intros Hlen s grand. subst s grand.
  rewrite (aggregate_signal_enough _ Hlen).
  cbn [Signal.yes_pct Signal.no_pct].
  split; [reflexivity|]. split; [reflexivity|].
  split; [|split; [|apply total_nonzero]].
  - intros Hz. unfold total. apply Qeq_bool_iff in Hz. by rewrite Hz.
  - intros Hnz. unfold total.
    destruct (Qeq_bool (yes_votes profiles + no_votes profiles) 0) eqn:E;
      [|reflexivity].
    apply Qeq_bool_iff in E. contradiction.
Qed.

(** C8, as the code has it.  With at least 3 profiles the top-5 consensus
    label is computed from the first 5 profiles, YES counting those on
    "yes" and NO the others: 4 or more on one side gives "Strong", exactly
    3 on one side gives "Lean", and both followed by that side and
    "(count/5)"; otherwise the label is "Split (yes count/no count)". *)
Theorem top5_consensus_label (profiles : list Profile.t) :
  (3 <= length profiles)%nat ->
  let label := Signal.top5_consensus (aggregate_signal profiles) in
  let y := top5_yes profiles in
  let n := top5_no profiles in
  (y + n = Nat.min 5 (length profiles))%nat
  /\ ((4 <= y)%nat -> label = "Strong YES (" +:+ pretty y +:+ "/5)")
  /\ ((4 <= n)%nat -> label = "Strong NO (" +:+ pretty n +:+ "/5)")
  /\ (y = 3%nat -> label = "Lean YES (" +:+ pretty y +:+ "/5)")
  /\ (n = 3%nat -> label = "Lean NO (" +:+ pretty n +:+ "/5)")
  /\ ((y < 3)%nat -> (n < 3)%nat ->
      label = "Split (" +:+ pretty y +:+ "/" +:+ pretty n +:+ ")").
Proof.
  intros Hlen label y n. subst label y n.
  rewrite (aggregate_signal_enough _ Hlen). cbn [Signal.top5_consensus].
  pose proof (top5_counts profiles) as Hsum.
  split; [exact Hsum|].
  unfold top_label.
  destruct (Nat.leb_spec 4 (top5_yes profiles));
    destruct (Nat.leb_spec 4 (top5_no profiles));
    destruct (Nat.leb_spec 3 (top5_yes profiles));
    destruct (Nat.leb_spec 3 (top5_no profiles));
    repeat split; intros; try reflexivity; lia.
Qed.

End SignalTheorems.

Lemma too_few_profiles_give_no_signal_witness :
  (length Examples.two_profiles < 3)%nat
  /\ Signal.signal (aggregate_signal Examples.two_profiles) = "NO_CLEAR_SIGNAL"
  /\ Signal.confidence (aggregate_signal Examples.two_profiles) = 0.
Proof.
  assert (H : (length Examples.two_profiles < 3)%nat) by (simpl; lia).
  split; [exact H|].
  destruct (too_few_profiles_give_no_signal Examples.two_profiles H)
    as (Hsig & _ & Hconf & _).
  split; [exact Hsig | exact Hconf].
Defined.

(** C2 as stated fails.  With 2 profiles whose invested values are 1000 and
    100 no warning is set; with 3 profiles whose biggest holder ranks third
    (100, 100, 1000) no warning is set; with invested values 5, 0, 0 no
    warning is set: in all three the largest amount is at least 3 times the
    second largest. *)
Lemma whale_warning_counterexample :
  (spec_whale_dominance Examples.two_profiles = true
   /\ Signal.whale_warning (aggregate_signal Examples.two_profiles) = None)
  /\ (spec_whale_dominance Examples.whale_ranked_third = true
      /\ Signal.whale_warning (aggregate_signal Examples.whale_ranked_third)
         = None)
  /\ (spec_whale_dominance Examples.second_empty = true
      /\ Signal.whale_warning (aggregate_signal Examples.second_empty) = None).
Proof. vm_compute. repeat split. Qed.

Lemma whale_warning_of_leading_holders_witness :
  let p0 := Examples.profile "0xA" "Yes" 0.9 0.5 400 0 in
  let p1 := Examples.profile "0xB" "YES" 0.8 0.5 100 (2 * Examples.day) in
  let p2 := Examples.profile "0xC" "yes" 0.7 0.5 100 (4 * Examples.day) in
  (1 <= length [p2])%nat
  /\ Profile.usdc_invested p1 <= Profile.usdc_invested p0
  /\ Forall (fun p => Profile.usdc_invested p <= Profile.usdc_invested p1) [p2]
  /\ is_Some (Signal.whale_warning (aggregate_signal [p0; p1; p2])).
Proof.
  intros p0 p1 p2.
  assert (Hlen : (1 <= length [p2])%nat) by (simpl; lia).
  assert (Hle : Profile.usdc_invested p1 <= Profile.usdc_invested p0)
    by (vm_compute; discriminate).
  assert (Hothers : Forall (fun p => Profile.usdc_invested p
                                     <= Profile.usdc_invested p1) [p2])
    by (constructor; [vm_compute; discriminate | constructor]).
  split; [exact Hlen|]. split; [exact Hle|]. split; [exact Hothers|].
  apply (proj2 (proj2 (whale_warning_of_leading_holders p0 p1 [p2]
                         Hlen Hle Hothers))).
  split; vm_compute; reflexivity.
Defined.

(** C7 as stated fails.  Three votes of 0.03 give a grand total of 0.09: the
    denominator used is 0.09, not the floor 1, and the YES share is 2/3 where
    the floored denominator would give 0.06. *)
Lemma vote_share_floor_counterexample :
  yes_votes Examples.small_votes == 0.06
  /\ no_votes Examples.small_votes == 0.03
  /\ total Examples.small_votes == 0.09
  /\ spec_total_floored Examples.small_votes == 1
  /\ yes_pct Examples.small_votes == 2 / 3
  /\ ~ yes_pct Examples.small_votes
       == yes_votes Examples.small_votes
          / spec_total_floored Examples.small_votes.
Proof. vm_compute. repeat split. discriminate. Qed.

Lemma vote_shares_divide_by_guarded_total_witness :
  (3 <= length Examples.small_votes)%nat
  /\ Signal.yes_pct (aggregate_signal Examples.small_votes)
     = round (yes_votes Examples.small_votes / total Examples.small_votes * 100) 1
  /\ ~ total Examples.small_votes == 0.
Proof.
  assert (H : (3 <= length Examples.small_votes)%nat) by (simpl; lia).
  split; [exact H|].
  destruct (vote_shares_divide_by_guarded_total Examples.small_votes H)
    as (Hyes & _ & _ & _ & Hnz).
  split; [exact Hyes | exact Hnz].
Defined.

(** C8 as stated fails.  With two wallets on each side the label is
    "Split (2/2)", which does not end in "/5)". *)
Lemma split_label_counterexample :
  Signal.top5_consensus (aggregate_signal Examples.two_against_two)
  = "Split (2/2)"
  /\ endswith (Signal.top5_consensus (aggregate_signal Examples.two_against_two))
              "/5)" = false.
Proof. vm_compute. split; reflexivity. Qed.

Lemma top5_consensus_label_witness :
  (3 <= length Examples.three_yes)%nat
  /\ top5_yes Examples.three_yes = 3%nat
  /\ Signal.top5_consensus (aggregate_signal Examples.three_yes)
     = "Lean YES (3/5)".
Proof.
  assert (H : (3 <= length Examples.three_yes)%nat) by (simpl; lia).
  split; [exact H|].
  assert (Hy : top5_yes Examples.three_yes = 3%nat) by reflexivity.
  split; [exact Hy|].
  destruct (top5_consensus_label Examples.three_yes H)
    as (_ & _ & _ & Hlean & _).
  exact (Hlean Hy).
Defined.

(* ===================================================================== *)
(** ** Cluster detection                                                  *)
(* ===================================================================== *)

(** When every later wallet is new and entered at the seed's instant, the
    inner loop appends all of them. *)
Lemma scan_later_all_join (p1 : Profile.t) (later : list Profile.t) :
  (forall p2, p2 ∈ later ->
     Profile.first_trade_ts p2 = Profile.first_trade_ts p1) ->
  NoDup (Profile.address <$> later) ->
  forall (cluster : list string) (used : gset string),
  (forall p2, p2 ∈ later -> Profile.address p2 ∉ used) ->
  scan_later p1 later cluster used
  = (cluster ++ (Profile.address <$> later),
     list_to_set (Profile.address <$> later) ∪ used).
Proof.
  induction later as [|p2 rest IH]; intros Hts Hnd cluster used Hfresh.
  - simpl. rewrite app_nil_r. f_equal. set_solver.
  - simpl. apply NoDup_cons in Hnd as [Hnotin Hnd].
    destruct (decide (Profile.address p2 ∈ used)) as [Hin|_].
    { exfalso. apply (Hfresh p2); [left | exact Hin]. }
    rewrite (Hts p2) by left.
    rewrite Z.sub_diag. simpl.
    rewrite IH.
    + rewrite <- app_assoc. simpl. f_equal. set_solver.
    + intros q Hq. apply Hts. by right.
    + exact Hnd.
    + intros q Hq. apply not_elem_of_union. split.
      * apply not_elem_of_singleton. intros Heq. apply Hnotin.
        rewrite <- Heq. by apply list_elem_of_fmap_2.
      * apply Hfresh. by right.
Qed.

(** When every later wallet is more than the window away from the seed, the
    inner loop leaves the cluster and the used set as they are. *)
Lemma scan_later_none_join (p1 : Profile.t) (later : list Profile.t)
    (cluster : list string) (used : gset string) :
  (forall p2, p2 ∈ later ->
     (window < Z.abs (Profile.first_trade_ts p1 - Profile.first_trade_ts p2))%Z) ->
  scan_later p1 later cluster used = (cluster, used).
Proof.
  induction later as [|p2 rest IH]; intros Hfar; [reflexivity|].
  simpl.
  assert (Hrest : scan_later p1 rest cluster used = (cluster, used)).
  { apply IH. intros q Hq. apply Hfar. by right. }
  destruct (decide (Profile.address p2 ∈ used)); [exact Hrest|].
  destruct (Z.leb_spec
              (Z.abs (Profile.first_trade_ts p1 - Profile.first_trade_ts p2))
              window) as [Hle|_]; [|exact Hrest].
  specialize (Hfar p2 ltac:(left)). lia.
Qed.

(** Wallets already used seed no cluster. *)
Lemma detect_loop_all_used (profiles : list Profile.t) (used : gset string)
    (clusters : list (list string)) :
  (forall p, p ∈ profiles -> Profile.address p ∈ used) ->
  detect_loop profiles used clusters = clusters.
Proof.
  induction profiles as [|p1 later IH]; intros Hused; [reflexivity|].
  simpl. destruct (decide (Profile.address p1 ∈ used)) as [_|Hnot].
  - apply IH. intros q Hq. apply Hused. by right.
  - exfalso. apply Hnot, Hused. left.
Qed.

Lemma detect_loop_far_apart (profiles : list Profile.t) :
  (forall i j p q, i <> j -> profiles !! i = Some p -> profiles !! j = Some q ->
     (window < Z.abs (Profile.first_trade_ts p - Profile.first_trade_ts q))%Z) ->
  forall (used : gset string) (clusters : list (list string)),
  detect_loop profiles used clusters = clusters.
Proof.
  induction profiles as [|p1 later IH]; intros Hfar used clusters;
    [reflexivity|].
  assert (Hlater : forall used clusters,
             detect_loop later used clusters = clusters).
  { apply IH. intros i j p q Hij Hi Hj.
    apply (Hfar (S i) (S j) p q); [lia | exact Hi | exact Hj]. }
  simpl. destruct (decide (Profile.address p1 ∈ used)); [apply Hlater|].
  rewrite scan_later_none_join.
  - simpl. apply Hlater.
  - intros q Hq. apply list_elem_of_lookup_1 in Hq as [k Hk].
    apply (Hfar 0%nat (S k) p1 q); [lia | reflexivity | exact Hk].
Qed.

(** C5.  For at least 2 profiles with distinct wallet addresses: when all
    first-trade timestamps are identical, [detect_clusters] returns exactly
    one cluster, holding all the wallets; when any two first-trade
    timestamps differ by more than the 24-hour window, it returns no
    cluster. *)
Theorem detect_clusters_one_or_none (profiles : list Profile.t) :
  (2 <= length profiles)%nat ->
  NoDup (Profile.address <$> profiles) ->
  ((forall p q, p ∈ profiles -> q ∈ profiles ->
      Profile.first_trade_ts p = Profile.first_trade_ts q) ->
   detect_clusters profiles = [Profile.address <$> profiles])
  /\ ((forall i j p q, i <> j ->
         profiles !! i = Some p -> profiles !! j = Some q ->
         (CLUSTER_WINDOW_HOURS * 3600
          < Z.abs (Profile.first_trade_ts p - Profile.first_trade_ts q))%Z) ->
      detect_clusters profiles = []).
Proof.
  intros Hlen Hnd. split.
  - intros Hsame.
    destruct profiles as [|p1 [|p2 rest]]; simpl in Hlen; try lia.
    set (later := p2 :: rest) in *.
    unfold detect_clusters. cbn [detect_loop].
    destruct (decide (Profile.address p1 ∈ (∅ : gset string))) as [Hin|_];
      [set_solver|].
    rewrite fmap_cons in Hnd. apply NoDup_cons in Hnd as [Hnotin Hnd].
    rewrite scan_later_all_join.
    + assert (Hbig : (1 <? length ([Profile.address p1]
                                    ++ (Profile.address <$> later)))%nat = true).
      { apply Nat.ltb_lt. subst later. simpl. lia. }
      rewrite Hbig. simpl app at 2.
      rewrite detect_loop_all_used; [reflexivity|].
      intros q Hq. apply elem_of_union_r, elem_of_union_l.
      apply elem_of_list_to_set. by apply list_elem_of_fmap_2.
    + intros q Hq. apply Hsame; [by right | left].
    + exact Hnd.
    + intros q _. set_solver.
  - intros Hfar. unfold detect_clusters. by apply detect_loop_far_apart.
Qed.

Lemma detect_clusters_one_or_none_witness :
  ((2 <= length Examples.same_instant)%nat
   /\ NoDup (Profile.address <$> Examples.same_instant)
   /\ detect_clusters Examples.same_instant = [["0xA"; "0xB"; "0xC"]])
  /\ ((2 <= length Examples.two_against_two)%nat
      /\ NoDup (Profile.address <$> Examples.two_against_two)
      /\ detect_clusters Examples.two_against_two = []).
Proof.
  split.
  - assert (Hlen : (2 <= length Examples.same_instant)%nat) by (simpl; lia).
    assert (Hnd : NoDup (Profile.address <$> Examples.same_instant))
      by (apply (bool_decide_unpack _); vm_compute; exact I).
    split; [exact Hlen|]. split; [exact Hnd|].
    apply (proj1 (detect_clusters_one_or_none Examples.same_instant Hlen Hnd)).
    intros p q Hp Hq.
    assert (Hts : forall r, r ∈ Examples.same_instant ->
                    Profile.first_trade_ts r = 1740000000%Z).
    { intros r Hr. unfold Examples.same_instant in Hr.
      repeat (apply elem_of_cons in Hr as [->|Hr]; [reflexivity|]).
      by apply elem_of_nil in Hr. }
    by rewrite (Hts p Hp), (Hts q Hq).
  - assert (Hlen : (2 <= length Examples.two_against_two)%nat) by (simpl; lia).
    assert (Hnd : NoDup (Profile.address <$> Examples.two_against_two))
      by (apply (bool_decide_unpack _); vm_compute; exact I).
    split; [exact Hlen|]. split; [exact Hnd|].
    apply (proj2 (detect_clusters_one_or_none Examples.two_against_two Hlen Hnd)).
    intros i j p q Hij Hi Hj.
    destruct i as [|[|[|[|i]]]]; destruct j as [|[|[|[|j]]]];
      simpl in Hi, Hj; try discriminate; try (exfalso; lia);
      injection Hi as <-; injection Hj as <-; vm_compute; reflexivity.
Defined.

(** *** The shape of the detected clusters *)

(** What the inner loop appends: wallets that come later, in their order,
    none of which had been used. *)
Lemma scan_later_appends (p1 : Profile.t) (later : list Profile.t) :
  forall (cluster : list string) (used : gset string),
  exists added : list string,
    scan_later p1 later cluster used
    = (cluster ++ added, list_to_set added ∪ used)
    /\ added `sublist_of` (Profile.address <$> later)
    /\ (forall a, a ∈ added -> a ∉ used).
Proof.
  induction later as [|p2 rest IH]; intros cluster used.
  - exists []. simpl. rewrite app_nil_r. split; [f_equal; set_solver|].
    split; [constructor | intros a Ha; by apply elem_of_nil in Ha].
  - simpl. destruct (decide (Profile.address p2 ∈ used)) as [Hin|Hnew].
    { destruct (IH cluster used) as (added & Heq & Hsub & Hfresh).
      exists added. split; [exact Heq|]. split; [by apply sublist_cons | exact Hfresh]. }
    destruct (_ <=? window)%Z.
    + destruct (IH (cluster ++ [Profile.address p2])
                   ({[Profile.address p2]} ∪ used))
        as (added & Heq & Hsub & Hfresh).
      exists (Profile.address p2 :: added). rewrite Heq.
      split; [rewrite <- app_assoc; simpl; f_equal; set_solver|].
      split; [by apply sublist_skip|].
      intros a Ha. apply elem_of_cons in Ha as [->|Ha]; [exact Hnew|].
      specialize (Hfresh a Ha). set_solver.
    + destruct (IH cluster used) as (added & Heq & Hsub & Hfresh).
      exists added. split; [exact Heq|]. split; [by apply sublist_cons | exact Hfresh].
Qed.

(** The invariant of the outer loop: the clusters recorded so far are
    pairwise disjoint and free of repetitions, each has at least two
    members, and [used] is the set of their members. *)
Lemma detect_loop_invariant (profiles : list Profile.t) :
  NoDup (Profile.address <$> profiles) ->
  forall (used : gset string) (clusters : list (list string)),
  NoDup (concat clusters) ->
  used = list_to_set (concat clusters) ->
  Forall (fun c => (2 <= length c)%nat) clusters ->
  let found := detect_loop profiles used clusters in
  NoDup (concat found)
  /\ Forall (fun c => (2 <= length c)%nat) found
  /\ (forall a, a ∈ concat found ->
        a ∈ concat clusters \/ a ∈ (Profile.address <$> profiles)).
Proof.
  induction profiles as [|p1 later IH]; intros Hnd used clusters Hdis Hused Hbig.
  { simpl. split; [exact Hdis|]. split; [exact Hbig | auto]. }
  rewrite fmap_cons in Hnd. apply NoDup_cons in Hnd as [Hseed Hnd].
  cbn [detect_loop].
  destruct (decide (Profile.address p1 ∈ used)) as [Hin|Hnew].
  { destruct (IH Hnd used clusters Hdis Hused Hbig) as (H1 & H2 & H3).
    split; [exact H1|]. split; [exact H2|].
    intros a Ha. destruct (H3 a Ha) as [?|?]; [by left | right; by right]. }
  destruct (scan_later_appends p1 later [Profile.address p1] used)
    as (added & -> & Hsub & Hfresh).
  destruct (Nat.ltb_spec 1 (length ([Profile.address p1] ++ added)))
    as [Hlen|Hlen].
  - set (cluster := [Profile.address p1] ++ added) in *.
    assert (Hndc : NoDup cluster).
    { subst cluster. simpl. apply NoDup_cons. split.
      - intros Ha. apply Hseed. by eapply elem_of_sublist.
      - eapply sublist_NoDup; [exact Hnd | exact Hsub]. }
    assert (Hfreshc : forall a, a ∈ cluster -> a ∉ concat clusters).
    { intros a Ha Hold. subst cluster. simpl in Ha.
      assert (Hau : a ∈ used) by (subst used; by apply elem_of_list_to_set).
      apply elem_of_cons in Ha as [->|Ha]; [by apply Hnew|].
      by apply (Hfresh a Ha). }
    destruct (IH Hnd ({[Profile.address p1]} ∪ (list_to_set added ∪ used))
                (clusters ++ [cluster])) as (H1 & H2 & H3).
    + rewrite concat_app. simpl. rewrite app_nil_r. apply NoDup_app.
      split; [exact Hdis|]. split; [|exact Hndc].
      intros a Hold Ha. by apply (Hfreshc a Ha).
    + rewrite concat_app. simpl. rewrite app_nil_r.
      rewrite list_to_set_app_L. subst cluster used. simpl.
      set_solver.
    + apply Forall_app. split; [exact Hbig|]. constructor; [lia | constructor].
    + split; [exact H1|]. split; [exact H2|].
      intros a Ha. destruct (H3 a Ha) as [Hc|Hl]; [|right; by right].
      rewrite concat_app in Hc. simpl in Hc. rewrite app_nil_r in Hc.
      apply elem_of_app in Hc as [Hc|Hc]; [by left|].
      right. subst cluster. simpl in Hc.
      apply elem_of_cons in Hc as [->|Hc]; [left|].
      right. by apply (sublist_subseteq _ _ Hsub a).
  - assert (added = []) as ->.
    { destruct added; [reflexivity | simpl in Hlen; lia]. }
    destruct (IH Hnd (list_to_set [] ∪ used) clusters) as (H1 & H2 & H3);
      [exact Hdis | set_solver | exact Hbig |].
    split; [exact H1|]. split; [exact H2|].
    intros a Ha. destruct (H3 a Ha) as [?|?]; [by left | right; by right].
Qed.

Lemma detect_clusters_shape (profiles : list Profile.t) :
  NoDup (Profile.address <$> profiles) ->
  NoDup (concat (detect_clusters profiles))
  /\ Forall (fun c => (2 <= length c)%nat) (detect_clusters profiles)
  /\ (forall a, a ∈ concat (detect_clusters profiles) ->
        a ∈ (Profile.address <$> profiles)).
Proof.
  intros Hnd.
  destruct (detect_loop_invariant profiles Hnd ∅ [])
    as (H1 & H2 & H3); [constructor | reflexivity | constructor |].
  split; [exact H1|]. split; [exact H2|].
  intros a Ha. destruct (H3 a Ha) as [Hnil|?]; [|done].
  simpl in Hnil. by apply elem_of_nil in Hnil.
Qed.

(** *** The cluster map *)

Lemma elem_of_concat (a : string) (clusters : list (list string)) :
  a ∈ concat clusters <-> exists c, a ∈ c /\ c ∈ clusters.
Proof.
  induction clusters as [|c0 rest IH]; simpl.
  - split; [intros H; by apply elem_of_nil in H|].
    intros (c & _ & Hc). by apply elem_of_nil in Hc.
  - rewrite elem_of_app, IH. split.
    + intros [H|(c & Hac & Hc)]; [exists c0; split; [done | left]|].
      exists c. split; [done | by right].
    + intros (c & Hac & Hc). apply elem_of_cons in Hc as [->|Hc]; [by left|].
      right. eauto.
Qed.

Lemma assign_cluster_lookup (cid : nat) (cluster : list string) :
  forall (m : gmap string nat) (a : string),
  foldl (fun m addr => <[addr := cid]> m) m cluster !! a
  = if decide (a ∈ cluster) then Some cid else m !! a.
Proof.
  induction cluster as [|x rest IH]; intros m a; simpl.
  - destruct (decide (a ∈ [])) as [Hin|_]; [by apply elem_of_nil in Hin | done].
  - rewrite IH.
    destruct (decide (a ∈ rest)) as [Hin|Hnot].
    + rewrite decide_True; [done | by right].
    + destruct (decide (x = a)) as [->|Hne].
      * rewrite lookup_insert_eq. rewrite decide_True; [done | left].
      * rewrite lookup_insert_ne by done.
        rewrite decide_False; [done|].
        intros Hin. apply elem_of_cons in Hin as [->|Hin]; done.
Qed.

Lemma cluster_map_from_outside (clusters : list (list string)) (a : string) :
  a ∉ concat clusters ->
  forall (cid : nat) (m : gmap string nat),
  cluster_map_from cid clusters m !! a = m !! a.
Proof.
  induction clusters as [|c rest IH]; intros Hout cid m; [reflexivity|].
  simpl in *. apply not_elem_of_app in Hout as [Hc Hrest].
  rewrite IH by exact Hrest.
  rewrite assign_cluster_lookup. by rewrite decide_False.
Qed.

Lemma cluster_map_from_member (clusters : list (list string)) (a : string) :
  NoDup (concat clusters) ->
  forall (i : nat) (c : list string) (cid : nat) (m : gmap string nat),
  clusters !! i = Some c -> a ∈ c ->
  cluster_map_from cid clusters m !! a = Some (cid + i)%nat.
Proof.
  induction clusters as [|c0 rest IH]; intros Hnd i c cid m Hi Ha;
    [discriminate|].
  simpl in Hnd. apply NoDup_app in Hnd as (_ & Hdisj & Hnd).
  destruct i as [|i]; simpl in Hi.
  - injection Hi as ->. simpl.
    rewrite cluster_map_from_outside by (by apply Hdisj).
    rewrite assign_cluster_lookup. rewrite decide_True by done.
    f_equal. lia.
  - simpl. rewrite (IH Hnd i c (S cid) _ Hi Ha). f_equal. lia.
Qed.

Section ClusterVotes.
Context `{RT : Runtime}.

(** A wallet is mapped to cluster [cid] exactly when it is a member of the
    [cid]-th detected cluster. *)
Lemma cluster_map_lookup (profiles : list Profile.t) (a : string) (cid : nat) :
  NoDup (Profile.address <$> profiles) ->
  cluster_map profiles !! a = Some cid
  <-> exists c, detect_clusters profiles !! cid = Some c /\ a ∈ c.
Proof.
  intros Hnd. destruct (detect_clusters_shape profiles Hnd) as (Hdis & _ & _).
  unfold cluster_map. split.
  - intros Hlook.
    destruct (decide (a ∈ concat (detect_clusters profiles))) as [Hin|Hout].
    + apply elem_of_concat in Hin as (c & Hac & Hc).
      apply list_elem_of_lookup_1 in Hc as [i Hi].
      rewrite (cluster_map_from_member _ a Hdis i c 0 ∅ Hi Hac) in Hlook.
      injection Hlook as <-. eauto.
    + rewrite cluster_map_from_outside in Hlook by exact Hout.
      rewrite lookup_empty in Hlook. discriminate.
  - intros (c & Hc & Hac).
    by rewrite (cluster_map_from_member _ a Hdis cid c 0 ∅ Hc Hac).
Qed.

Lemma cluster_map_outside (profiles : list Profile.t) (a : string) :
  (forall c, c ∈ detect_clusters profiles -> a ∉ c) ->
  cluster_map profiles !! a = None.
Proof.
  intros Hout. unfold cluster_map.
  rewrite cluster_map_from_outside; [apply lookup_empty|].
  intros Hin. apply elem_of_concat in Hin as (c & Hac & Hc).
  by apply (Hout c Hc).
Qed.

Lemma sumQ_snoc (xs : list Q) (x : Q) : sumQ (xs ++ [x]) = sumQ xs + x.
Proof. unfold sumQ. apply foldl_snoc. Qed.

(** After the tally loop, a cluster's entry holds the left-to-right sum of
    the raw votes and the number of the profiles booked on it. *)
Lemma tallies_lookup (cmap : gmap string nat) (cid : nat)
    (profiles : list Profile.t) :
  let acc := foldl (tally_member cmap) (∅, ∅) profiles in
  let members := booked cmap cid profiles in
  acc.1 !! cid
  = (if decide (members = []) then None
     else Some (sumQ (vote_raw <$> members)))
  /\ acc.2 !! cid
     = (if decide (members = []) then None
        else Some (Z.of_nat (length members))).
Proof.
  induction profiles as [|p profiles IH] using rev_ind.
  { simpl. split; apply lookup_empty. }
  cbn zeta in *. rewrite foldl_snoc. unfold booked in *. rewrite filter_app.
  destruct IH as [IHv IHc].
  set (acc := foldl (tally_member cmap) (∅, ∅) profiles) in *.
  set (members := filter (fun p => cmap !! Profile.address p = Some cid)
                         profiles) in *.
  unfold tally_member.
  destruct (cmap !! Profile.address p) as [cid'|] eqn:Hp.
  - destruct (decide (cid' = cid)) as [->|Hne].
    + assert (Hfil : filter (fun p => cmap !! Profile.address p = Some cid) [p]
                     = [p]).
      { rewrite filter_cons_True by exact Hp. by rewrite filter_nil. }
      rewrite Hfil. clear Hfil.
      assert (Hne : members ++ [p] <> []) by (by destruct members).
      cbn [fst snd]. rewrite !lookup_insert_eq.
      destruct (decide (members ++ [p] = [])) as [Heq|_]; [done|].
      rewrite IHv, IHc.
      rewrite fmap_app, length_app. simpl (_ <$> [p]). rewrite sumQ_snoc.
      simpl length.
      destruct (decide (members = [])) as [->|_]; simpl.
      * split; reflexivity.
      * split; f_equal. lia.
    + rewrite filter_cons_False by congruence. rewrite filter_nil, app_nil_r.
      cbn [fst snd]. rewrite !lookup_insert_ne by done. by split.
  - rewrite filter_cons_False by congruence. rewrite filter_nil, app_nil_r.
    by split.
Qed.

End ClusterVotes.

(** *** The vote cap *)

Lemma foldl_Qplus_scaled {A : Type} (f g : A -> Q) (k : Q) (l : list A) :
  (forall x, x ∈ l -> g x == f x * k) ->
  forall a a' : Q, a' == a * k ->
  foldl Qplus a' (g <$> l) == foldl Qplus a (f <$> l) * k.
Proof.
  induction l as [|x l IH]; intros Hscale a a' Ha; simpl; [exact Ha|].
  apply IH.
  - intros y Hy. apply Hscale. by right.
  - rewrite Ha, (Hscale x) by left. ring.
Qed.

Lemma sumQ_scaled {A : Type} (f g : A -> Q) (k : Q) (l : list A) :
  (forall x, x ∈ l -> g x == f x * k) ->
  sumQ (g <$> l) == sumQ (f <$> l) * k.
Proof.
  intros Hscale. unfold sumQ. apply foldl_Qplus_scaled; [exact Hscale | ring].
Qed.

Lemma NoDup_fmap_filter {A B : Type} (f : A -> B) (P : A -> Prop)
    `{!forall x, Decision (P x)} (l : list A) :
  NoDup (f <$> l) -> NoDup (f <$> filter P l).
Proof.
  induction l as [|x l IH]; intros Hnd; [constructor|].
  rewrite fmap_cons in Hnd. apply NoDup_cons in Hnd as [Hx Hnd].
  rewrite filter_cons. destruct (decide (P x)); [|by apply IH].
  rewrite fmap_cons. apply NoDup_cons. split; [|by apply IH].
  intros Hin. apply Hx.
  apply list_elem_of_fmap in Hin as (y & Hy & Hyin).
  apply list_elem_of_filter in Hyin as [_ Hyin].
  rewrite Hy. by apply list_elem_of_fmap_2.
Qed.

Lemma NoDup_concat_member (clusters : list (list string)) (c : list string) :
  NoDup (concat clusters) -> c ∈ clusters -> NoDup c.
Proof.
  intros Hnd Hc. apply list_elem_of_split in Hc as (l1 & l2 & ->).
  rewrite concat_app in Hnd. simpl in Hnd.
  apply NoDup_app in Hnd as (_ & _ & Hnd).
  by apply NoDup_app in Hnd as (Hnd & _ & _).
Qed.

Section VoteCap.
Context `{RT : Runtime}.

(** The profiles booked on a cluster are the profiles of its members, and
    there are as many of them as the cluster has addresses. *)
Lemma booked_members (profiles : list Profile.t) (cid : nat) (c : list string) :
  NoDup (Profile.address <$> profiles) ->
  detect_clusters profiles !! cid = Some c ->
  let members := filter (fun p => Profile.address p ∈ c) profiles in
  booked (cluster_map profiles) cid profiles = members
  /\ length members = length c
  /\ (2 <= length c)%nat.
Proof.
  intros Hnd Hc members. subst members.
  destruct (detect_clusters_shape profiles Hnd) as (Hdis & Hbig & Hsub).
  assert (Hcin : c ∈ detect_clusters profiles)
    by (by eapply list_elem_of_lookup_2).
  split; [|split].
  - unfold booked. apply list_filter_iff. intros p.
    rewrite (cluster_map_lookup profiles _ cid Hnd). split.
    + intros (c' & Hc' & Hin). congruence.
    + intros Hin. eauto.
  - rewrite <- (length_fmap Profile.address).
    apply Permutation_length, NoDup_Permutation.
    + by apply NoDup_fmap_filter.
    + by apply (NoDup_concat_member _ _ Hdis).
    + intros a. rewrite list_elem_of_fmap. split.
      * intros (p & -> & Hp). by apply list_elem_of_filter in Hp as [Hp _].
      * intros Ha.
        assert (Hall : a ∈ Profile.address <$> profiles).
        { apply Hsub, elem_of_concat. eauto. }
        apply list_elem_of_fmap in Hall as (p & -> & Hp).
        exists p. split; [done|]. by apply list_elem_of_filter.
  - rewrite Forall_forall in Hbig. by apply Hbig.
Qed.

(** The vote of a member of cluster [cid] is its raw vote times the
    cluster's scale factor. *)
Lemma vote_of_member (profiles : list Profile.t) (cid : nat) (c : list string)
    (p : Profile.t) :
  NoDup (Profile.address <$> profiles) ->
  detect_clusters profiles !! cid = Some c ->
  p ∈ profiles -> Profile.address p ∈ c ->
  let members := filter (fun p => Profile.address p ∈ c) profiles in
  vote profiles p
  = vote_raw p
    * cap_scale (cluster_counts profiles) cid (sumQ (vote_raw <$> members))
  /\ cluster_counts profiles !!! cid = Z.of_nat (length c).
Proof.
  intros Hnd Hc Hp Hin members.
  destruct (booked_members profiles cid c Hnd Hc) as (Hbooked & Hlen & Hbig).
  fold members in Hbooked, Hlen.
  assert (Hne : members <> []).
  { intros Hnil. rewrite Hnil in Hlen. simpl in Hlen. lia. }
  destruct (tallies_lookup (cluster_map profiles) cid profiles) as [Hv Hn].
  cbn zeta in Hv, Hn. rewrite Hbooked in Hv, Hn.
  destruct (decide (members = [])) as [Hnil|_]; [contradiction|].
  assert (Hcount : cluster_counts profiles !!! cid = Z.of_nat (length c)).
  { apply lookup_total_correct. unfold cluster_counts, cluster_tallies.
    rewrite Hn. by rewrite Hlen. }
  split; [|exact Hcount].
  unfold vote.
  assert (Hmap : cluster_map profiles !! Profile.address p = Some cid).
  { apply (cluster_map_lookup profiles _ cid Hnd). eauto. }
  rewrite Hmap. f_equal.
  apply lookup_total_correct. unfold cluster_caps.
  rewrite map_lookup_imap. unfold cluster_votes, cluster_tallies.
  rewrite Hv. reflexivity.
Qed.

(** C4.  For profiles with distinct wallet addresses and every detected
    cluster whose members' raw votes sum to a positive total: the cluster
    has as many member profiles as addresses, the sum of the members'
    post-cap votes equals CLUSTER_VOTE_CAP (1.5) times the raw total
    divided by the member count, and this sum does not exceed the raw
    total; a wallet outside every cluster votes at its raw weight. *)
Theorem cluster_votes_are_capped (profiles : list Profile.t) :
  NoDup (Profile.address <$> profiles) ->
  (forall (cid : nat) (c : list string),
     detect_clusters profiles !! cid = Some c ->
     let members := filter (fun p => Profile.address p ∈ c) profiles in
     let raw_total := sumQ (vote_raw <$> members) in
     let capped_total := sumQ (vote profiles <$> members) in
     0 < raw_total ->
     length members = length c
     /\ capped_total == CLUSTER_VOTE_CAP * (raw_total / ofnat (length c))
     /\ capped_total <= raw_total)
  /\ (forall p : Profile.t,
        (forall c, c ∈ detect_clusters profiles -> Profile.address p ∉ c) ->
        vote profiles p = vote_raw p).
Proof.
  intros Hnd. split.
  - intros cid c Hc members raw_total capped_total Hpos.
    destruct (booked_members profiles cid c Hnd Hc) as (_ & Hlen & Hbig).
    fold members in Hlen. split; [exact Hlen|].
    set (scale := cap_scale (cluster_counts profiles) cid raw_total).
    assert (Hsum : capped_total == raw_total * scale).
    { subst capped_total raw_total. apply sumQ_scaled.
      intros p Hp. apply list_elem_of_filter in Hp as [Hin Hp].
      destruct (vote_of_member profiles cid c p Hnd Hc Hp Hin) as [Hvote _].
      fold members in Hvote. rewrite Hvote. reflexivity. }
    assert (Hcount : cluster_counts profiles !!! cid = Z.of_nat (length c)).
    { destruct members as [|p rest] eqn:Hm; [simpl in Hlen; lia|].
      assert (Hp : p ∈ filter (fun p => Profile.address p ∈ c) profiles).
      { fold members. rewrite Hm. left. }
      apply list_elem_of_filter in Hp as [Hin Hp].
      by destruct (vote_of_member profiles cid c p Hnd Hc Hp Hin). }
    assert (Hn : 2 <= ofnat (length c)).
    { unfold ofnat. change 2 with (inject_Z 2). rewrite <- Zle_Qle. lia. }
    assert (Hscale : scale == CLUSTER_VOTE_CAP / ofnat (length c)).
    { subst scale. unfold cap_scale. rewrite Hcount.
      rewrite (proj2 (Qltb_lt _ _) Hpos).
      unfold ofZ, ofnat in *. field. split; lra. }
    assert (Hinv : 0 < / ofnat (length c) /\ / ofnat (length c) <= 1 # 2).
    { split.
      - apply Qinv_lt_0_compat. lra.
      - apply Qle_shift_inv_r; lra. }
    split.
    + rewrite Hsum, Hscale. field. lra.
    + rewrite Hsum, Hscale. unfold Qdiv, CLUSTER_VOTE_CAP.
      destruct Hinv as [Hinv0 Hinv2]. nra.
  - intros p Hout. unfold vote.
    by rewrite (cluster_map_outside profiles _ Hout).
Qed.

End VoteCap.

Lemma cluster_votes_are_capped_witness :
  NoDup (Profile.address <$> Examples.same_hour)
  /\ detect_clusters Examples.same_hour !! 0%nat = Some ["0xA"; "0xB"; "0xC"]
  /\ (let members :=
        filter (fun p => Profile.address p ∈ ["0xA"; "0xB"; "0xC"])
               Examples.same_hour in
      let raw_total := sumQ (vote_raw <$> members) in
      let capped_total := sumQ (vote Examples.same_hour <$> members) in
      0 < raw_total
      /\ capped_total == CLUSTER_VOTE_CAP * (raw_total / ofnat 3)
      /\ capped_total <= raw_total).
Proof.
  assert (Hnd : NoDup (Profile.address <$> Examples.same_hour))
    by (apply (bool_decide_unpack _); vm_compute; exact I).
  assert (Hc : detect_clusters Examples.same_hour !! 0%nat
               = Some ["0xA"; "0xB"; "0xC"]) by (vm_compute; reflexivity).
  split; [exact Hnd|]. split; [exact Hc|].
  intros members raw_total capped_total.
  assert (Hpos : 0 < raw_total) by (vm_compute; reflexivity).
  split; [exact Hpos|].
  destruct (proj1 (cluster_votes_are_capped Examples.same_hour Hnd)
              0%nat ["0xA"; "0xB"; "0xC"] Hc Hpos) as (_ & Hcap & Hle).
  split; [exact Hcap | exact Hle].
Defined.

(* ===================================================================== *)
(** ** The drop counters of the collection loop                           *)
(* ===================================================================== *)

(** C1.  The drop counters at a run with one holder, a wallet with 10,000
    of total profit, nothing realized yet and 2 markets traded.
    [score_wallet] accepts it at the realized-profit filter (30% of the
    total profit stands in for the missing realized profit) and rejects it
    at the markets filter; the run ends without a qualified profile, and
    its counters book the wallet under "below $500 realized" and nothing
    under "below 5 markets". *)
Theorem drop_counters_at_open_positions_only :
  let future :=
    _fetch_and_score_wallet Examples.fetch_open_only ∅ "0xA" Examples.position
      Examples.market "Crypto" 1740000000 MIN_TOTAL_PNL false in
  let st := foldl (collect MIN_TOTAL_PNL) Tally.init [future] in
  future = Returns ("0xA", None, Examples.stats_open_only)
  /\ rejecting_filter Examples.stats_open_only MIN_TOTAL_PNL = Some FilterMarkets
  /\ counted_filter MIN_TOTAL_PNL Examples.stats_open_only
     = Some FilterRealizedPnl
  /\ Tally.profiles st = []
  /\ Tally.wallets_checked st = 1%nat
  /\ Tally.dropped_pnl st = 0%nat
  /\ Tally.dropped_realized st = 1%nat
  /\ Tally.dropped_markets st = 0%nat
  /\ Tally.dropped_wins st = 0%nat
  /\ run_analysis Examples.fetch_open_only ∅ Examples.market "Crypto"
       [("0xA", Examples.position)] MIN_TOTAL_PNL false
     = Failure (no_wallets_message MIN_TOTAL_PNL st).
Proof. vm_compute. repeat split. Qed.

(* ===================================================================== *)
(** ** Ranges of the sub-scores and of the multipliers                    *)
(* ===================================================================== *)

Lemma Qmin_cases (a b : Q) :
  Qmin a b <= a /\ Qmin a b <= b /\ (Qmin a b == a \/ Qmin a b == b).
Proof.
  split; [apply Q.le_min_l|]. split; [apply Q.le_min_r|].
  destruct (Q.min_spec a b) as [[_ H]|[_ H]]; auto.
Qed.

Lemma Qmax_cases (a b : Q) :
  a <= Qmax a b /\ b <= Qmax a b /\ (Qmax a b == a \/ Qmax a b == b).
Proof.
  split; [apply Q.le_max_l|]. split; [apply Q.le_max_r|].
  destruct (Q.max_spec a b) as [[_ H]|[_ H]]; auto.
Qed.

Lemma clamp_unit (t : Q) : 0 <= Qmax (Qmin t 1) 0 <= 1.
Proof.
  destruct (Qmax_cases (Qmin t 1) 0) as (H1 & H2 & [H3|H3]);
    destruct (Qmin_cases t 1) as (H4 & H5 & _); lra.
Qed.

Lemma Qdiv_pos (a b : Q) : 0 < a -> 0 < b -> 0 < a / b.
Proof.
  intros Ha Hb. apply Qlt_shift_div_l; [exact Hb | lra].
Qed.

Lemma Qdiv_nonneg (a b : Q) : 0 <= a -> 0 < b -> 0 <= a / b.
Proof.
  intros Ha Hb. apply Qle_shift_div_l; [exact Hb | lra].
Qed.

Section ScoreRanges.
Context `{RT : Runtime}.

(** X1.  The entry-timing score lies in [0, 1] for every entry price,
    current price, side and timestamps, the early-entry bonus included. *)
Theorem score_entry_timing_in_unit_interval (avg_entry current_yes_price : Q)
    (outcome : string) (first_trade_ts market_start_ts market_end_ts : Z) :
  0 <= score_entry_timing avg_entry current_yes_price outcome
         first_trade_ts market_start_ts market_end_ts <= 1.
Proof.
  unfold score_entry_timing.
  destruct (Qleb avg_entry 0 || Qleb current_yes_price 0); [lra|].
  destruct (String.eqb (lower outcome) "yes").
  - destruct (Qleb avg_entry 0); [lra | apply clamp_unit].
  - destruct (Qleb (1 - avg_entry) 0); [lra | apply clamp_unit].
Qed.

(** X2.  The category-expertise multiplier lies in [0.85, 1.25] for every
    pair of inputs. *)
Theorem category_multiplier_range (category_pnl category_total : Q) :
  0.85 <= compute_category_multiplier category_pnl category_total <= 1.25.
Proof.
  unfold compute_category_multiplier.
  destruct (Qleb category_total 0 || Qltb category_pnl 0); [lra|].
  destruct (Qmax_cases (Qmin (category_pnl / category_total) 1) 0)
    as (H1 & H2 & [H3|H3]);
    destruct (Qmin_cases (category_pnl / category_total) 1) as (H4 & H5 & _);
    lra.
Qed.

(** X3.  The recent-form multiplier lies in [0.90, 1.20] for every pair of
    inputs: the penalty never goes below 0.90. *)
Theorem recent_form_multiplier_range (recent_pnl historical_pnl : Q) :
  0.90 <= compute_recent_form_multiplier recent_pnl historical_pnl <= 1.20.
Proof.
  unfold compute_recent_form_multiplier.
  destruct (Qleb historical_pnl 0) eqn:Hh; destruct (Qleb recent_pnl 0) eqn:Hr;
    cbn [andb].
  - lra.
  - apply Qleb_gt in Hr. rewrite (proj2 (Qltb_lt _ _) Hr). lra.
  - apply Qleb_gt in Hh. rewrite (proj2 (Qltb_lt _ _) Hh). lra.
  - apply Qleb_gt in Hh, Hr.
    pose proof (Qdiv_pos _ _ Hr Hh) as Hratio.
    destruct (Qmin_cases (recent_pnl / historical_pnl) 2) as (H1 & H2 & [H3|H3]);
      lra.
Qed.

(** X4.  The hold-duration score lies in [0, 1] for every pair of
    timestamps, also for a first trade in the future or before the market
    start. *)
Theorem hold_duration_score_in_unit_interval (first_trade_ts market_start_ts : Z) :
  0 <= compute_hold_duration_score first_trade_ts market_start_ts <= 1.
Proof.
  unfold compute_hold_duration_score, ofZ.
  set (h := Z.max (now - first_trade_ts) 0).
  set (a := Z.max (now - market_start_ts) 1).
  assert (Hh : 0 <= inject_Z h).
  { change 0 with (inject_Z 0). rewrite <- Zle_Qle. lia. }
  assert (Ha : 0 < inject_Z a).
  { change 0 with (inject_Z 0). rewrite <- Zlt_Qlt. lia. }
  pose proof (Qdiv_nonneg _ _ Hh Ha) as Hfrac.
  destruct (Qmin_cases (inject_Z h / inject_Z a) 1) as (H1 & H2 & [H3|H3]); lra.
Qed.


(** X6.  The conviction score never exceeds 1; for a position that is
    non-negative and no larger than the wallet's average position it lies
    in [0.25, 0.5]. *)
Theorem score_conviction_range (position_usdc avg_position_usdc : Q) :
  score_conviction position_usdc avg_position_usdc <= 1
  /\ (0 <= position_usdc -> position_usdc <= avg_position_usdc ->
      0.25 <= score_conviction position_usdc avg_position_usdc <= 0.5).
Proof.
  unfold score_conviction.
  destruct (Qleb avg_position_usdc 0) eqn:Havg; [split; [lra | intros; lra]|].
  apply Qleb_gt in Havg.
  destruct (Qleb (position_usdc / avg_position_usdc) 1) eqn:Hratio.
  - apply Qleb_le in Hratio. split; [lra|].
    intros Hpos _. pose proof (Qdiv_nonneg _ _ Hpos Havg). lra.
  - split; [apply Q.le_min_r|].
    intros _ Hle. apply Qleb_gt in Hratio. exfalso.
    assert (position_usdc / avg_position_usdc <= 1).
    { apply Qle_shift_div_r; [exact Havg | lra]. }
    lra.
Qed.

End ScoreRanges.

(* ===================================================================== *)
(** ** What score_wallet returns                                          *)
(* ===================================================================== *)

Section ScoreWalletFacts.
Context `{RT : Runtime}.

(** X7.  With a non-negative minimum-profit threshold [score_wallet] never
    raises: it returns the rejection marker or a profile, whatever the
    statistics, the position and the market are. *)
Theorem score_wallet_never_raises (wallet : string) (position : Position.t)
    (stats : gmap string Q) (market : Market.t) (market_start_ts : Z)
    (min_profit : Q) :
  0 <= min_profit ->
  exists r : option Profile.t,
    score_wallet wallet position stats market market_start_ts min_profit
    = Returns r.
Proof.
  intros Hmin. unfold score_wallet.
  destruct (Qltb (get stats "total_pnl" 0) min_profit) eqn:Hpnl; [eauto|].
  destruct (Qltb (if Qltb 0 (get stats "realized_pnl" 0) then _ else _) _);
    [eauto|].
  destruct (Qltb (get stats "markets_traded" 0) MIN_MARKETS); [eauto|].
  destruct (Qltb 0 (get stats "closed_total" 0) && _); [eauto|].
  apply Qltb_ge in Hpnl.
  destruct (score_profit_returns (get stats "total_pnl" 0) min_profit)
    as [s Hs]; [lra|].
  rewrite Hs. simpl. eauto.
Qed.


(** X9.  A profile that [score_wallet] returns passed the four hard
    filters and carries the wallet, the side and the position it was
    scored for: its total profit is at least the threshold, its realized
    profit (or 30% of the total profit when none is realized) is at least
    500, it traded at least 5 markets, and if it has closed positions at
    least 3 of them are wins. *)
Theorem scored_profile_passed_the_filters (wallet : string)
    (position : Position.t) (stats : gmap string Q) (market : Market.t)
    (market_start_ts : Z) (min_profit : Q) (p : Profile.t) :
  score_wallet wallet position stats market market_start_ts min_profit
  = Returns (Some p) ->
  Profile.address p = wallet
  /\ Profile.outcome p = Position.outcome position
  /\ Profile.usdc_invested p = Position.usdc_invested position
  /\ Profile.first_trade_ts p = Position.first_trade_ts position
  /\ min_profit <= Profile.total_pnl p
  /\ MIN_REALIZED_PNL
     <= (if Qltb 0 (Profile.realized_pnl p) then Profile.realized_pnl p
         else Profile.total_pnl p * 0.3)
  /\ MIN_MARKETS <= Profile.markets_traded p
  /\ (0 < Profile.closed_total p -> MIN_CLOSED_WINS <= Profile.closed_wins p).
Proof.
  unfold score_wallet.
  destruct (Qltb (get stats "total_pnl" 0) min_profit) eqn:Hpnl;
    [discriminate|].
  destruct (Qltb (if Qltb 0 (get stats "realized_pnl" 0) then _ else _) _)
    eqn:Hreal; [discriminate|].
  destruct (Qltb (get stats "markets_traded" 0) MIN_MARKETS) eqn:Hmk;
    [discriminate|].
  destruct (Qltb 0 (get stats "closed_total" 0)
            && Qltb (get stats "closed_wins" 0) MIN_CLOSED_WINS) eqn:Hwins;
    [discriminate|].
  destruct (score_profit _ _) as [s|e]; simpl; [|discriminate].
  intros Heq. injection Heq as <-. cbn.
  apply Qltb_ge in Hpnl, Hreal, Hmk.
  repeat (split; [done|]).
  intros Hclosed. apply Qltb_lt in Hclosed. rewrite Hclosed in Hwins.
  cbn [andb] in Hwins. by apply Qltb_ge in Hwins.
Qed.

End ScoreWalletFacts.

(* ===================================================================== *)
(** ** Invariants of the detected clusters                                *)
(* ===================================================================== *)

Lemma length_concat_at_least (clusters : list (list string)) :
  Forall (fun c => (2 <= length c)%nat) clusters ->
  (2 * length clusters <= length (concat clusters))%nat.
Proof.
  induction 1 as [|c rest Hc _ IH]; simpl; [lia|].
  rewrite length_app. lia.
Qed.

(** X10.  For profiles with distinct wallet addresses the detected clusters
    are pairwise disjoint and without repeated members, each has at least
    2 members, every member is the address of a profile, and there are at
    most half as many clusters as profiles. *)
Theorem detected_clusters_partition_wallets (profiles : list Profile.t) :
  NoDup (Profile.address <$> profiles) ->
  NoDup (concat (detect_clusters profiles))
  /\ Forall (fun c => (2 <= length c)%nat) (detect_clusters profiles)
  /\ (forall c a, c ∈ detect_clusters profiles -> a ∈ c ->
        a ∈ (Profile.address <$> profiles))
  /\ (2 * length (detect_clusters profiles) <= length profiles)%nat.
Proof.
  intros Hnd. destruct (detect_clusters_shape profiles Hnd) as (Hdis & Hbig & Hsub).
  split; [exact Hdis|]. split; [exact Hbig|]. split.
  - intros c a Hc Ha. apply Hsub, elem_of_concat. eauto.
  - pose proof (length_concat_at_least _ Hbig) as Hlen.
    pose proof (submseteq_length _ _ (NoDup_submseteq _ _ Hdis Hsub)) as Hle.
    rewrite length_fmap in Hle. lia.
Qed.

(** The members the inner loop adds entered within the window of the
    seed. *)
Lemma scan_later_within (p1 : Profile.t) (later : list Profile.t) :
  forall (cluster : list string) (used : gset string) (a : string),
  a ∈ (scan_later p1 later cluster used).1 ->
  a ∈ cluster
  \/ exists p2, p2 ∈ later /\ Profile.address p2 = a
       /\ (Z.abs (Profile.first_trade_ts p1 - Profile.first_trade_ts p2)
           <= window)%Z.
Proof.
  induction later as [|p2 rest IH]; intros cluster used a Ha; [by left|].
  simpl in Ha.
  assert (Hskip : a ∈ (scan_later p1 rest cluster used).1 ->
            a ∈ cluster
            \/ exists q, q ∈ p2 :: rest /\ Profile.address q = a
                 /\ (Z.abs (Profile.first_trade_ts p1 - Profile.first_trade_ts q)
                     <= window)%Z).
  { intros H. destruct (IH _ _ _ H) as [?|(q & Hq & Hrest)]; [by left|].
    right. exists q. split; [by right | exact Hrest]. }
  destruct (decide (Profile.address p2 ∈ used)); [by apply Hskip|].
  destruct (Z.leb_spec
              (Z.abs (Profile.first_trade_ts p1 - Profile.first_trade_ts p2))
              window) as [Hle|_]; [|by apply Hskip].
  destruct (IH _ _ _ Ha) as [Hin|(q & Hq & Hrest)].
  - apply elem_of_app in Hin as [Hin|Hin]; [by left|].
    apply list_elem_of_singleton in Hin as ->.
    right. exists p2. split; [left | done].
  - right. exists q. split; [by right | exact Hrest].
Qed.

Lemma scan_later_head (p1 : Profile.t) (later : list Profile.t)
    (used : gset string) :
  (scan_later p1 later [Profile.address p1] used).1 !! 0%nat
  = Some (Profile.address p1).
Proof.
  destruct (scan_later_appends p1 later [Profile.address p1] used)
    as (added & -> & _). reflexivity.
Qed.

Lemma detect_loop_seeds (profiles : list Profile.t) :
  forall (used : gset string) (clusters : list (list string)) (c : list string),
  c ∈ detect_loop profiles used clusters ->
  c ∈ clusters
  \/ exists seed, seed ∈ profiles
       /\ c !! 0%nat = Some (Profile.address seed)
       /\ forall a, a ∈ c ->
            exists p, p ∈ profiles /\ Profile.address p = a
              /\ (Z.abs (Profile.first_trade_ts seed - Profile.first_trade_ts p)
                  <= window)%Z.
Proof.
  induction profiles as [|p1 later IH]; intros used clusters c Hc; [by left|].
  assert (Hlift : forall used' clusters',
            c ∈ detect_loop later used' clusters' ->
            c ∈ clusters'
            \/ exists seed, seed ∈ p1 :: later
                 /\ c !! 0%nat = Some (Profile.address seed)
                 /\ forall a, a ∈ c ->
                      exists p, p ∈ p1 :: later /\ Profile.address p = a
                        /\ (Z.abs (Profile.first_trade_ts seed
                                   - Profile.first_trade_ts p) <= window)%Z).
  { intros used' clusters' H.
    destruct (IH _ _ _ H) as [?|(seed & Hseed & Hhead & Hmem)]; [by left|].
    right. exists seed. split; [by right|]. split; [exact Hhead|].
    intros a Ha. destruct (Hmem a Ha) as (p & Hp & Hrest).
    exists p. split; [by right | exact Hrest]. }
  cbn [detect_loop] in Hc.
  destruct (decide (Profile.address p1 ∈ used)); [exact (Hlift _ _ Hc)|].
  pose proof (scan_later_head p1 later used) as Hhead.
  pose proof (scan_later_within p1 later [Profile.address p1] used) as Hwithin.
  destruct (scan_later p1 later [Profile.address p1] used) as [cluster used'].
  cbn [fst] in Hhead, Hwithin.
  destruct (1 <? length cluster)%nat; [|exact (Hlift _ _ Hc)].
  destruct (Hlift _ _ Hc) as [Hin|?]; [|by right].
  apply elem_of_app in Hin as [Hin|Hin]; [by left|].
  apply list_elem_of_singleton in Hin as ->.
  right. exists p1. split; [left|]. split; [exact Hhead|].
  intros a Ha. destruct (Hwithin a Ha) as [Hseed|(p2 & Hp2 & Haddr & Hle)].
  - apply list_elem_of_singleton in Hseed as ->.
    exists p1. split; [left|]. split; [done|].
    rewrite Z.sub_diag. simpl. unfold window, CLUSTER_WINDOW_HOURS. lia.
  - exists p2. split; [by right | done].
Qed.

(** X11.  Every detected cluster starts with a seed wallet, and every
    member of the cluster is a profile whose first trade lies within the
    24-hour window of the seed's first trade. *)
Theorem cluster_members_within_window_of_seed (profiles : list Profile.t)
    (c : list string) :
  c ∈ detect_clusters profiles ->
  exists seed, seed ∈ profiles
    /\ c !! 0%nat = Some (Profile.address seed)
    /\ forall a, a ∈ c ->
         exists p, p ∈ profiles /\ Profile.address p = a
           /\ (Z.abs (Profile.first_trade_ts seed - Profile.first_trade_ts p)
               <= CLUSTER_WINDOW_HOURS * 3600)%Z.
Proof.
  intros Hc. unfold detect_clusters in Hc.
  destruct (detect_loop_seeds profiles ∅ [] c Hc) as [Hnil|Hseed];
    [by apply elem_of_nil in Hnil | exact Hseed].
Qed.

(* ===================================================================== *)
(** ** The vote shares, the confidence and the verdict                    *)
(* ===================================================================== *)

Lemma biggest_of_length (others : list (list string)) :
  forall (first : list string) (k : nat),
  (k <= length (biggest_of first others))%nat
  <-> (k <= length first)%nat \/ exists c, c ∈ others /\ (k <= length c)%nat.
Proof.
  unfold biggest_of.
  induction others as [|d rest IH]; intros first k; simpl.
  - split; [by left|]. intros [?|(c & Hc & _)]; [done|].
    by apply elem_of_nil in Hc.
  - rewrite IH. destruct (Nat.ltb_spec (length first) (length d)) as [Hlt|Hge].
    + split.
      * intros [?|(c & Hc & ?)]; right; [exists d | exists c];
          (split; [|done]); [left | by right].
      * intros [?|(c & Hc & ?)]; [left; lia|].
        apply elem_of_cons in Hc as [->|Hc]; [by left|]. right. eauto.
    + split.
      * intros [?|(c & Hc & ?)]; [by left|]. right. exists c.
        split; [by right | done].
      * intros [?|(c & Hc & ?)]; [by left|].
        apply elem_of_cons in Hc as [->|Hc]; [left; lia|]. right. eauto.
Qed.

Lemma sides_disjoint (outcome : string) : is_yes outcome -> is_no outcome -> False.
Proof.
  unfold is_yes, is_no. intros Hy Hn.
  apply Is_true_true, String.eqb_eq in Hy. apply Is_true_true, String.eqb_eq in Hn.
  congruence.
Qed.

Lemma side_counts (profiles : list Profile.t) :
  (length (filter (fun p => is_yes (Profile.outcome p)) profiles)
   + length (filter (fun p => is_no (Profile.outcome p)) profiles)
   <= length profiles)%nat
  /\ (Forall (fun p => is_yes (Profile.outcome p) \/ is_no (Profile.outcome p))
             profiles ->
      (length (filter (fun p => is_yes (Profile.outcome p)) profiles)
       + length (filter (fun p => is_no (Profile.outcome p)) profiles)
       = length profiles)%nat).
Proof.
  induction profiles as [|p rest [IHle IHeq]]; [simpl; split; [lia | done]|].
  rewrite !filter_cons.
  destruct (decide (is_yes (Profile.outcome p))) as [Hy|Hy];
    destruct (decide (is_no (Profile.outcome p))) as [Hn|Hn].
  - destruct (sides_disjoint _ Hy Hn).
  - simpl. split; [lia|]. intros Hall. apply Forall_cons in Hall as [_ Hall].
    specialize (IHeq Hall). lia.
  - simpl. split; [lia|]. intros Hall. apply Forall_cons in Hall as [_ Hall].
    specialize (IHeq Hall). lia.
  - simpl. split; [lia|]. intros Hall. apply Forall_cons in Hall as [[?|?] _];
      contradiction.
Qed.

Section VerdictFacts.
Context `{RT : Runtime}.

(** X12.  The two vote shares add up to 1 whenever the grand total of the
    votes is not zero, and to 0 when it is zero. *)
Theorem vote_shares_sum (profiles : list Profile.t) :
  (~ yes_votes profiles + no_votes profiles == 0 ->
   yes_pct profiles + no_pct profiles == 1)
  /\ (yes_votes profiles + no_votes profiles == 0 ->
      yes_pct profiles + no_pct profiles == 0).
Proof.
  unfold yes_pct, no_pct, total. split; intros H.
  - destruct (Qeq_bool (yes_votes profiles + no_votes profiles) 0) eqn:E.
    + apply Qeq_bool_iff in E. contradiction.
    + field. exact H.
  - rewrite (proj2 (Qeq_bool_iff _ _) H). rewrite <- H. field.
Qed.

(** X13.  The confidence, before it is rounded to one decimal, lies
    between 0 and 10 for every list of profiles. *)
Theorem confidence_between_0_and_10 (profiles : list Profile.t) :
  0 <= confidence profiles <= 10.
Proof.
  unfold confidence.
  assert (Hs : 0 <= spread profiles) by apply Qabs_nonneg.
  assert (Hn : 0 <= n_factor profiles).
  { unfold n_factor, ofnat.
    assert (0 <= inject_Z (Z.of_nat (length profiles))).
    { change 0 with (inject_Z 0). rewrite <- Zle_Qle. lia. }
    assert (0 <= inject_Z (Z.of_nat (length profiles)) / 10)
      by (apply Qdiv_nonneg; lra).
    destruct (Qmin_cases (inject_Z (Z.of_nat (length profiles)) / 10) 1.5)
      as (_ & _ & [H3|H3]); lra. }
  assert (Hb : 0 <= cons_bonus profiles).
  { unfold cons_bonus. destruct (contains "Strong" _); [lra|].
    destruct (contains "Lean" _); lra. }
  assert (Hprod : 0 <= spread profiles * 10 * n_factor profiles) by nra.
  destruct (Qmin_cases (spread profiles * 10 * n_factor profiles
                        + cons_bonus profiles) 10) as (_ & H2 & [H3|H3]); lra.
Qed.

(** X14.  The verdict and its strength agree: the aggregator reports
    NO_CLEAR_SIGNAL exactly when it reports the strength "N/A", otherwise it
    reports BUY_YES or BUY_NO; it reports BUY_YES only when the YES share
    is the larger one and at least 0.52, BUY_NO only when the NO share is
    at least 0.52; and when both sides have the same vote total it reports
    NO_CLEAR_SIGNAL. *)
Theorem verdict_matches_strength (profiles : list Profile.t) :
  let s := aggregate_signal profiles in
  (Signal.signal s = "NO_CLEAR_SIGNAL" <-> Signal.strength s = "N/A")
  /\ (Signal.signal s = "NO_CLEAR_SIGNAL" \/ Signal.signal s = "BUY_YES"
      \/ Signal.signal s = "BUY_NO")
  /\ (Signal.signal s = "BUY_YES" ->
      no_pct profiles < yes_pct profiles /\ 0.52 <= yes_pct profiles)
  /\ (Signal.signal s = "BUY_NO" ->
      yes_pct profiles <= no_pct profiles /\ 0.52 <= no_pct profiles)
  /\ (yes_votes profiles == no_votes profiles ->
      Signal.signal s = "NO_CLEAR_SIGNAL").
Proof.
  intros s. subst s.
  destruct (Nat.lt_ge_cases (length profiles) 3) as [Hfew|Hlen].
  { rewrite (aggregate_signal_few _ Hfew). cbn.
    repeat split; auto; discriminate. }
  rewrite (aggregate_signal_enough _ Hlen).
  cbn [Signal.signal Signal.strength].
  assert (Hdom : strength profiles <> None -> 0.52 <= dominant_pct profiles).
  { unfold strength.
    destruct (Qleb 0.65 (dominant_pct profiles)) eqn:E1;
      [apply Qleb_le in E1; intros _; lra|].
    destruct (Qleb 0.57 (dominant_pct profiles)) eqn:E2;
      [apply Qleb_le in E2; intros _; lra|].
    destruct (Qleb 0.52 (dominant_pct profiles)) eqn:E3;
      [apply Qleb_le in E3; intros _; lra | done]. }
  assert (Hnone : dominant_pct profiles < 0.52 -> strength profiles = None).
  { intros Hlow. unfold strength.
    rewrite (proj2 (Qleb_gt 0.65 _)) by lra.
    rewrite (proj2 (Qleb_gt 0.57 _)) by lra.
    by rewrite (proj2 (Qleb_gt 0.52 _)) by lra. }
  assert (Hstr : forall x, strength profiles = Some x -> x <> "N/A").
  { unfold strength. intros x.
    repeat (destruct (Qleb _ _); [intros [= <-]; discriminate|]).
    discriminate. }
  unfold signal.
  destruct (strength profiles) as [x|] eqn:Hx; cbn [default].
  - specialize (Hdom ltac:(discriminate)). specialize (Hstr x eq_refl).
    unfold dominant_pct in Hdom.
    destruct (Qmax_cases (yes_pct profiles) (no_pct profiles))
      as (H1 & H2 & Hcase).
    destruct (Qltb (no_pct profiles) (yes_pct profiles)) eqn:Hside.
    + apply Qltb_lt in Hside.
      split; [split; [discriminate | contradiction]|].
      split; [auto|]. split; [intros _; split; [done | lra]|].
      split; [discriminate|].
      intros Htie. exfalso.
      assert (yes_pct profiles == no_pct profiles).
      { unfold yes_pct, no_pct. by rewrite Htie. }
      lra.
    + apply Qltb_ge in Hside.
      split; [split; [discriminate | contradiction]|].
      split; [auto|]. split; [discriminate|].
      split; [intros _; split; [done | lra]|].
      intros Htie. exfalso.
      assert (Hpct : yes_pct profiles == no_pct profiles).
      { unfold yes_pct, no_pct. by rewrite Htie. }
      destruct (vote_shares_sum profiles) as [Hone Hzero].
      destruct (Qeq_dec (yes_votes profiles + no_votes profiles) 0) as [Hz|Hnz].
      * specialize (Hzero Hz). lra.
      * specialize (Hone Hnz). lra.
  - repeat split; auto; discriminate.
Qed.

(** X15.  The consensus bonus follows the first five profiles: it is 2
    when 4 or more of them are on one side, 1 when exactly 3 of them are on
    one side, and 0 otherwise; the substring tests on the label never
    misfire. *)
Theorem consensus_bonus_by_counts (profiles : list Profile.t) :
  let y := top5_yes profiles in
  let n := top5_no profiles in
  ((4 <= y)%nat \/ (4 <= n)%nat -> cons_bonus profiles = 2)
  /\ ((y < 4)%nat -> (n < 4)%nat -> y = 3%nat \/ n = 3%nat ->
      cons_bonus profiles = 1)
  /\ ((y < 3)%nat -> (n < 3)%nat -> cons_bonus profiles = 0).
Proof.
  intros y n. subst y n.
  pose proof (top5_counts profiles) as Hsum.
  assert (Hle : (top5_yes profiles + top5_no profiles <= 5)%nat) by lia.
  clear Hsum. unfold cons_bonus, top_label.
  generalize dependent (top5_no profiles).
  generalize dependent (top5_yes profiles).
  intros y n Hle.
  do 6 (destruct y as [|y]; [do 6 (destruct n as [|n];
          [vm_compute; repeat split; intros; try reflexivity; lia|]); lia|]).
  lia.
Qed.

(** X16.  The cluster warning is set exactly when some detected cluster
    has at least 3 members. *)
Theorem cluster_warning_iff_big_cluster (profiles : list Profile.t) :
  is_Some (cluster_warning profiles)
  <-> exists c, c ∈ detect_clusters profiles /\ (3 <= length c)%nat.
Proof.
  unfold cluster_warning.
  destruct (detect_clusters profiles) as [|c others].
  - split; [intros [w Hw]; discriminate|].
    intros (c & Hc & _). by apply elem_of_nil in Hc.
  - pose proof (biggest_of_length others c 3) as Hbig.
    destruct (Nat.leb_spec 3 (length (biggest_of c others))) as [Hle|Hlt].
    + split; [intros _ | eauto].
      apply Hbig in Hle as [?|(d & Hd & ?)].
      * exists c. split; [left | done].
      * exists d. split; [by right | done].
    + split; [intros [w Hw]; discriminate|].
      intros (d & Hd & Hlen). exfalso.
      assert (3 <= length (biggest_of c others))%nat; [|lia].
      apply Hbig. apply elem_of_cons in Hd as [->|Hd]; [by left|]. right. eauto.
Qed.

(** X17.  With at least 3 profiles the reported YES and NO counts add up
    to at most the number of qualified wallets, and to exactly that number
    when every profile's side is "yes" or "no" in any letter case. *)
Theorem side_counts_within_total (profiles : list Profile.t) :
  (3 <= length profiles)%nat ->
  let s := aggregate_signal profiles in
  (Signal.yes_count s + Signal.no_count s <= Signal.total_qualified s)%nat
  /\ Signal.total_qualified s = length profiles
  /\ (Forall (fun p => is_yes (Profile.outcome p) \/ is_no (Profile.outcome p))
             profiles ->
      (Signal.yes_count s + Signal.no_count s = Signal.total_qualified s)%nat).
Proof.
  intros Hlen s. subst s. rewrite (aggregate_signal_enough _ Hlen).
  cbn [Signal.yes_count Signal.no_count Signal.total_qualified].
  unfold yes_profiles, no_profiles.
  destruct (side_counts profiles) as [Hle Heq].
  split; [exact Hle|]. split; [reflexivity | exact Heq].
Qed.

End VerdictFacts.

(* ===================================================================== *)
(** ** Ranking the profiles                                               *)
(* ===================================================================== *)

Lemma insert_desc_permutation (p : Profile.t) (sorted : list Profile.t) :
  insert_desc p sorted ≡ₚ p :: sorted.
Proof.
  induction sorted as [|q rest IH]; simpl; [done|].
  destruct (Qleb (Profile.composite q) (Profile.composite p)); [done|].
  rewrite IH. apply Permutation_swap.
Qed.

Lemma insert_desc_ranked (p : Profile.t) (sorted : list Profile.t) :
  ranked sorted -> ranked (insert_desc p sorted).
Proof.
  unfold ranked. induction 1 as [|q rest Hrest IH Hq]; simpl.
  - repeat constructor.
  - destruct (Qleb (Profile.composite q) (Profile.composite p)) eqn:E.
    + apply Qleb_le in E. constructor; [by constructor|].
      constructor; [exact E|].
      eapply Forall_impl; [exact Hq|]. simpl. intros x Hx. lra.
    + apply Qleb_gt in E. constructor; [exact IH|].
      rewrite insert_desc_permutation. constructor; [lra | exact Hq].
Qed.

(** Sorting by composite returns the same profiles, ranked from the highest
    composite to the lowest. *)
Lemma sort_by_composite_ranks (profiles : list Profile.t) :
  sort_by_composite profiles ≡ₚ profiles
  /\ ranked (sort_by_composite profiles).
Proof.
  unfold sort_by_composite. induction profiles as [|p rest [IHp IHs]]; simpl.
  - split; [done | constructor].
  - split; [by rewrite insert_desc_permutation, IHp|].
    by apply insert_desc_ranked.
Qed.

Lemma insert_desc_keeps_order (k : Q) (p : Profile.t) (sorted : list Profile.t) :
  filter (fun x => Qeq_bool (Profile.composite x) k) (insert_desc p sorted)
  = filter (fun x => Qeq_bool (Profile.composite x) k) (p :: sorted).
Proof.
  induction sorted as [|q rest IH]; simpl; [done|].
  destruct (Qleb (Profile.composite q) (Profile.composite p)) eqn:E; [done|].
  apply Qleb_gt in E.
  rewrite (filter_cons _ q (insert_desc p rest)), IH.
  rewrite !filter_cons.
  destruct (decide (Qeq_bool (Profile.composite q) k)) as [Hq|Hq];
    destruct (decide (Qeq_bool (Profile.composite p) k)) as [Hp|Hp]; try done.
  exfalso. apply Is_true_true, Qeq_bool_iff in Hq.
  apply Is_true_true, Qeq_bool_iff in Hp. lra.
Qed.

(** The sort is stable: the profiles that share a composite value keep the
    order they had before the sort. *)
Lemma sort_by_composite_stable (k : Q) (profiles : list Profile.t) :
  filter (fun p => Qeq_bool (Profile.composite p) k) (sort_by_composite profiles)
  = filter (fun p => Qeq_bool (Profile.composite p) k) profiles.
Proof.
  unfold sort_by_composite. induction profiles as [|p rest IH]; simpl; [done|].
  rewrite insert_desc_keeps_order, !filter_cons, IH. done.
Qed.

(* ===================================================================== *)
(** ** The collection loop                                                *)
(* ===================================================================== *)

Lemma bump_cases (picked : option hard_filter) (f : hard_filter) (n : nat) :
  (picked = Some f /\ bump picked f n = S n)
  \/ (picked <> Some f /\ bump picked f n = n).
Proof. unfold bump. destruct (decide (picked = Some f)); auto. Qed.

Section LoopFacts.
Context `{RT : Runtime}.

#[local] Instance same_tally_equiv : Equivalence same_tally.
Proof.
  split.
  - intros a. by repeat split.
  - intros a b (H1 & H2 & H3 & H4 & H5 & H6 & H7). by repeat split.
  - intros a b c (H1 & H2 & H3 & H4 & H5 & H6 & H7)
      (G1 & G2 & G3 & G4 & G5 & G6 & G7).
    repeat split; try congruence. by rewrite H1.
Qed.

Lemma collect_respects (min_profit : Q) (a b : Tally.t)
    (future : result (string * option Profile.t * gmap string Q)) :
  same_tally a b ->
  same_tally (collect min_profit a future) (collect min_profit b future).
Proof.
  intros (H1 & H2 & H3 & H4 & H5 & H6 & H7). unfold collect.
  destruct future as [[[wallet profile] stats]|e]; repeat split; cbn;
    try congruence.
  destruct profile; [by rewrite H1 | exact H1].
Qed.

Lemma collect_swap (min_profit : Q) (st : Tally.t)
    (f g : result (string * option Profile.t * gmap string Q)) :
  same_tally (collect min_profit (collect min_profit st f) g)
             (collect min_profit (collect min_profit st g) f).
Proof.
  unfold collect.
  destruct f as [[[wf pf] sf]|ef]; destruct g as [[[wg pg] sg]|eg];
    repeat split; cbn; try reflexivity.
  - destruct pf, pg; try reflexivity.
    rewrite <- !app_assoc. apply Permutation_app_head. apply Permutation_swap.
  - unfold bump. repeat case_decide; reflexivity.
  - unfold bump. repeat case_decide; reflexivity.
  - unfold bump. repeat case_decide; reflexivity.
  - unfold bump. repeat case_decide; reflexivity.
Qed.

Lemma foldl_collect_respects (min_profit : Q)
    (futures : list (result (string * option Profile.t * gmap string Q))) :
  forall a b, same_tally a b ->
  same_tally (foldl (collect min_profit) a futures)
             (foldl (collect min_profit) b futures).
Proof.
  induction futures as [|f rest IH]; intros a b Hab; [exact Hab|].
  simpl. apply IH. by apply collect_respects.
Qed.

(** X18.  The result of the collection loop does not depend on the order
    in which the wallet tasks complete: two completion orders of the same
    futures give the same counters and the same profiles up to their
    order. *)
Theorem collection_is_order_independent (min_profit : Q)
    (futures futures' : list (result (string * option Profile.t * gmap string Q))) :
  futures ≡ₚ futures' ->
  same_tally (foldl (collect min_profit) Tally.init futures)
             (foldl (collect min_profit) Tally.init futures').
Proof.
  intros Hperm. generalize Tally.init.
  induction Hperm as [|f l l' _ IH|f g l|l1 l2 l3 _ IH1 _ IH2]; intros st.
  - reflexivity.
  - simpl. apply IH.
  - simpl. apply foldl_collect_respects, collect_swap.
  - etransitivity; [apply IH1 | apply IH2].
Qed.

(** X19.  The counter chain and the filter chain agree on the first
    filter, and they agree on every filter for a wallet with a positive
    realized profit and at least one closed position. *)
Theorem counters_agree_with_filters (stats : gmap string Q) (min_profit : Q) :
  (counted_filter min_profit stats = Some FilterTotalPnl
   <-> rejecting_filter stats min_profit = Some FilterTotalPnl)
  /\ (0 < get stats "realized_pnl" 0 -> 0 < get stats "closed_total" 0 ->
      counted_filter min_profit stats = rejecting_filter stats min_profit).
Proof.
  unfold counted_filter, rejecting_filter, effective_realized.
  change MIN_REALIZED_PNL with 500. change MIN_MARKETS with 5.
  change MIN_CLOSED_WINS with 3.
  split.
  - destruct (Qltb (get stats "total_pnl" 0) min_profit); [done|].
    split; intros H;
      repeat match type of H with
             | context [if ?b then _ else _] => destruct b
             end; discriminate.
  - intros Hreal Hclosed.
    rewrite (proj2 (Qltb_lt _ _) Hreal), (proj2 (Qltb_lt _ _) Hclosed).
    reflexivity.
Qed.

(** The counters after any list of futures. *)
Lemma collect_bounds (min_profit : Q)
    (futures : list (result (string * option Profile.t * gmap string Q))) :
  let st := foldl (collect min_profit) Tally.init futures in
  Tally.completed st = length futures
  /\ (length (Tally.profiles st) <= Tally.wallets_checked st)%nat
  /\ (Tally.wallets_checked st <= Tally.completed st)%nat
  /\ (dropped_total st <= Tally.wallets_checked st)%nat.
Proof.
  induction futures as [|f futures IH] using rev_ind; [cbn; lia|].
  cbn zeta in *. rewrite foldl_snoc, length_app.
  destruct IH as (H1 & H2 & H3 & H4).
  set (st := foldl (collect min_profit) Tally.init futures) in *.
  unfold collect, dropped_total in *.
  destruct f as [[[wallet profile] stats]|e]; cbn; [|lia].
  destruct (counted_filter min_profit stats) as [[]|]; unfold bump;
    repeat case_decide; try congruence;
    (destruct profile; [rewrite length_app; simpl|]); lia.
Qed.

(** A wallet that one of the hard filters rejects is booked on one of the
    four counters. *)
Lemma rejected_is_counted (stats : gmap string Q) (min_profit : Q) :
  is_Some (rejecting_filter stats min_profit) ->
  is_Some (counted_filter min_profit stats).
Proof.
  unfold rejecting_filter, counted_filter, effective_realized.
  destruct (Qltb (get stats "total_pnl" 0) min_profit); [eauto|].
  destruct (Qltb (get stats "realized_pnl" 0) 500) eqn:Hr; [eauto|].
  apply Qltb_ge in Hr.
  assert (Hpos : Qltb 0 (get stats "realized_pnl" 0) = true)
    by (apply Qltb_lt; lra).
  rewrite Hpos.
  rewrite (proj2 (Qltb_ge (get stats "realized_pnl" 0) MIN_REALIZED_PNL))
    by (unfold MIN_REALIZED_PNL; lra).
  change MIN_MARKETS with 5. change MIN_CLOSED_WINS with 3.
  destruct (Qltb (get stats "markets_traded" 0) 5); [eauto|].
  destruct (Qltb (get stats "closed_wins" 0) 3); [eauto|].
  rewrite andb_false_r. intros [f Hf]. discriminate.
Qed.

(** The profile a returned task carries is the one [score_wallet] gives
    for the statistics it carries. *)
Lemma task_returns_inv
    (fetch_wallet_stats : string -> string -> result (gmap string Q))
    (MOCK_STATS : gmap string (gmap string Q))
    (market : Market.t) (market_category : string) (market_start_ts : Z)
    (min_profit : Q) (use_mock : bool) (wp : string * Position.t)
    (wallet : string) (profile : option Profile.t) (stats : gmap string Q) :
  _fetch_and_score_wallet fetch_wallet_stats MOCK_STATS wp.1 wp.2 market
    market_category market_start_ts min_profit use_mock
  = Returns (wallet, profile, stats) ->
  score_wallet wp.1 wp.2 stats market market_start_ts min_profit
  = Returns profile.
Proof.
  unfold _fetch_and_score_wallet.
  set (stats0 := match (if use_mock then _ else _) with
                 | Returns s => s | Raises _ => ∅ end).
  destruct (score_wallet wp.1 wp.2 stats0 market market_start_ts min_profit)
    as [r|e] eqn:Hs; simpl; [|discriminate].
  intros [= _ <- <-]. exact Hs.
Qed.

(** X20.  Over the futures of the per-wallet tasks, every wallet that was
    checked and did not qualify is booked on exactly one drop counter: the
    four counters add up to at most the wallets checked and to at least
    the wallets checked minus the qualified profiles, so in a run without
    a qualified profile they add up to the wallets checked. *)
Theorem drop_counters_cover_rejections
    (fetch_wallet_stats : string -> string -> result (gmap string Q))
    (MOCK_STATS : gmap string (gmap string Q))
    (market : Market.t) (market_category : string) (market_start_ts : Z)
    (min_profit : Q) (use_mock : bool)
    (raw_positions : list (string * Position.t)) :
  let futures :=
    (fun wp => _fetch_and_score_wallet fetch_wallet_stats MOCK_STATS wp.1 wp.2
                 market market_category market_start_ts min_profit use_mock)
    <$> raw_positions in
  let st := foldl (collect min_profit) Tally.init futures in
  (dropped_total st <= Tally.wallets_checked st)%nat
  /\ (Tally.wallets_checked st
      <= dropped_total st + length (Tally.profiles st))%nat
  /\ (Tally.profiles st = [] -> dropped_total st = Tally.wallets_checked st).
Proof.
  cbn zeta.
  set (task := fun wp : string * Position.t =>
                 _fetch_and_score_wallet fetch_wallet_stats MOCK_STATS wp.1 wp.2
                   market market_category market_start_ts min_profit use_mock).
  assert (H : (dropped_total
                 (foldl (collect min_profit) Tally.init (task <$> raw_positions))
               <= Tally.wallets_checked
                    (foldl (collect min_profit) Tally.init (task <$> raw_positions))
               <= dropped_total
                    (foldl (collect min_profit) Tally.init (task <$> raw_positions))
                  + length (Tally.profiles
                    (foldl (collect min_profit) Tally.init
                       (task <$> raw_positions))))%nat).
  { induction raw_positions as [|wp rest IH] using rev_ind; [cbn; lia|].
    rewrite fmap_app. simpl (_ <$> [wp]). rewrite foldl_snoc.
    set (st := foldl (collect min_profit) Tally.init (task <$> rest)) in *.
    unfold collect, dropped_total in *.
    destruct (task wp) as [[[wallet profile] stats]|e] eqn:Ht; cbn; [|lia].
    apply task_returns_inv in Ht.
    destruct profile as [p|].
    - rewrite length_app. simpl.
      destruct (counted_filter min_profit stats) as [[]|]; unfold bump;
        repeat case_decide; try congruence; lia.
    - apply score_wallet_rejects_iff, rejected_is_counted in Ht as [f Hf].
      rewrite Hf. destruct f; unfold bump; repeat case_decide;
        try congruence; lia. }
  split; [lia|]. split; [lia|].
  intros Hnil. rewrite Hnil in H. simpl in H. lia.
Qed.

(** X21.  With a non-negative minimum-profit threshold no wallet task
    raises, whatever the statistics lookup does: every holder is checked. *)
Theorem every_holder_is_checked
    (fetch_wallet_stats : string -> string -> result (gmap string Q))
    (MOCK_STATS : gmap string (gmap string Q))
    (market : Market.t) (market_category : string) (market_start_ts : Z)
    (min_profit : Q) (use_mock : bool)
    (raw_positions : list (string * Position.t)) :
  0 <= min_profit ->
  let futures :=
    (fun wp => _fetch_and_score_wallet fetch_wallet_stats MOCK_STATS wp.1 wp.2
                 market market_category market_start_ts min_profit use_mock)
    <$> raw_positions in
  let st := foldl (collect min_profit) Tally.init futures in
  Tally.wallets_checked st = length raw_positions
  /\ Tally.completed st = length raw_positions.
Proof.
  intros Hmin. cbn zeta.
  set (task := fun wp : string * Position.t =>
                 _fetch_and_score_wallet fetch_wallet_stats MOCK_STATS wp.1 wp.2
                   market market_category market_start_ts min_profit use_mock).
  induction raw_positions as [|wp rest [IH1 IH2]] using rev_ind; [by cbn|].
  rewrite fmap_app. simpl (_ <$> [wp]). rewrite foldl_snoc, length_app.
  set (st := foldl (collect min_profit) Tally.init (task <$> rest)) in *.
  assert (Hret : exists w p s, task wp = Returns (w, p, s)).
  { unfold task, _fetch_and_score_wallet.
    set (stats0 := match (if use_mock then _ else _) with
                   | Returns s => s | Raises _ => ∅ end).
    destruct (score_wallet_never_raises wp.1 wp.2 stats0 market
                market_start_ts min_profit Hmin) as [r Hr].
    rewrite Hr. simpl. eauto. }
  destruct Hret as (w & p & s & ->). unfold collect. cbn. lia.
Qed.

(** X22.  When [run_analysis] succeeds, the profiles it returns are ranked
    by composite from the highest to the lowest and are not empty, the
    signal is the aggregate of exactly these profiles, the qualified count
    is their number, and qualified <= wallets checked <= total holders;
    the drop counters add up to at most the wallets checked. *)
Theorem run_analysis_success_payload
    (fetch_wallet_stats : string -> string -> result (gmap string Q))
    (MOCK_STATS : gmap string (gmap string Q))
    (market : Market.t) (market_category : string)
    (raw_positions : list (string * Position.t)) (min_profit : Q)
    (use_mock : bool) :
  match run_analysis fetch_wallet_stats MOCK_STATS market market_category
          raw_positions min_profit use_mock with
  | Failure _ => True
  | Success signal profiles total_holders wallets_checked qualified
            d_pnl d_realized d_markets d_wins =>
      profiles <> []
      /\ ranked profiles
      /\ signal = aggregate_signal profiles
      /\ qualified = length profiles
      /\ (qualified <= wallets_checked)%nat
      /\ (wallets_checked <= total_holders)%nat
      /\ total_holders = length raw_positions
      /\ (d_pnl + d_realized + d_markets + d_wins <= wallets_checked)%nat
  end.
Proof.
  unfold run_analysis.
  set (futures := _ <$> raw_positions).
  destruct (collect_bounds min_profit futures) as (H1 & H2 & H3 & H4).
  set (st := foldl (collect min_profit) Tally.init futures) in *.
  destruct (Tally.profiles st) as [|p rest] eqn:Hp; [exact I|].
  destruct (sort_by_composite_ranks (p :: rest)) as [Hperm Hranked].
  assert (Hlen : length (sort_by_composite (p :: rest)) = length (p :: rest))
    by (by rewrite Hperm).
  unfold dropped_total in H4. subst futures. rewrite length_fmap in H1.
  repeat split; try done; try lia.
  intros Hnil. rewrite Hnil in Hlen. discriminate.
Qed.

End LoopFacts.

(* ===================================================================== *)
(** ** Positions built from the trades                                    *)
(* ===================================================================== *)

Lemma build_positions_lookup (trades : list Trade.t) (wallet : string)
    (w : Holding.t) :
  build_positions trades !! wallet = Some w
  <-> exists w0, foldl record_trade ∅ trades !! wallet = Some w0
        /\ w = set_avg_entry w0 /\ 5 < Holding.net_shares w0.
Proof.
  unfold build_positions. rewrite map_lookup_filter_Some, lookup_fmap.
  cbn [snd]. split.
  - intros [Hw Hdust].
    destruct (foldl record_trade ∅ trades !! wallet) as [w0|] eqn:Hw0;
      [|discriminate].
    simpl in Hw. injection Hw as <-. exists w0. split; [done|]. split; [done|].
    apply Is_true_true, Qltb_lt in Hdust.
    unfold set_avg_entry in Hdust.
    by destruct (Qltb 0 (Holding.total_buy_shares w0)).
  - intros (w0 & Hw0 & -> & Hdust). rewrite Hw0. split; [done|].
    apply Is_true_true, Qltb_lt.
    unfold set_avg_entry. by destruct (Qltb 0 (Holding.total_buy_shares w0)).
Qed.

Lemma apply_trade_ok (w : Holding.t) (side outcome : string) (size usdc : Q)
    (outcome_idx ts : Z) :
  holding_ok w -> holding_ok (apply_trade w side outcome size usdc outcome_idx ts).
Proof.
  intros (H1 & H2 & H3 & H4). unfold apply_trade, holding_ok.
  destruct (String.eqb side "BUY"); [|destruct (String.eqb side "SELL")];
    cbn; destruct (Z.eqb_spec ts 0); repeat split; try done; lia.
Qed.

Lemma apply_trade_bought (w : Holding.t) (side outcome : string)
    (size usdc : Q) (outcome_idx ts : Z) :
  0 <= size -> holding_ok w -> holding_bought w ->
  holding_bought (apply_trade w side outcome size usdc outcome_idx ts).
Proof.
  intros Hsize (_ & _ & Hb & _) (H1 & H2 & H3). unfold apply_trade, holding_bought.
  destruct (String.eqb side "BUY"); [|destruct (String.eqb side "SELL")]; cbn.
  - split; [lra|]. split; [lra|]. intros Hz. lia.
  - split; [lra|]. split; [lra | exact H3].
  - split; [lra|]. split; [lra | exact H3].
Qed.

Lemma new_holding_ok (outcome : string) (outcome_idx ts : Z) :
  holding_ok (new_holding outcome outcome_idx ts)
  /\ holding_bought (new_holding outcome outcome_idx ts).
Proof.
  unfold holding_ok, holding_bought. cbn.
  repeat split; try lia; try lra; try (intros; reflexivity).
Qed.

(** The loop invariant of [build_positions]. *)
Lemma record_trades_invariant (trades : list Trade.t) :
  forall wallet w,
  foldl record_trade ∅ trades !! wallet = Some w ->
  wallet <> ""
  /\ (exists t, t ∈ trades /\ Trade.proxyWallet t = Some wallet)
  /\ holding_ok w
  /\ (Forall (fun t => 0 <= default 0 (Trade.size t)) trades ->
      holding_bought w).
Proof.
  induction trades as [|t trades IH] using rev_ind; intros wallet w Hw.
  { simpl in Hw. rewrite lookup_empty in Hw. discriminate. }
  rewrite foldl_snoc in Hw.
  set (raw := foldl record_trade ∅ trades) in *.
  unfold record_trade in Hw.
  assert (Hold : forall w', raw !! wallet = Some w' ->
            wallet <> ""
            /\ (exists t0, t0 ∈ trades ++ [t] /\ Trade.proxyWallet t0 = Some wallet)
            /\ holding_ok w'
            /\ (Forall (fun t => 0 <= default 0 (Trade.size t)) (trades ++ [t]) ->
                holding_bought w')).
  { intros w' Hw'. destruct (IH _ _ Hw') as (H1 & (t0 & Ht0 & Hp) & H3 & H4).
    split; [exact H1|]. split.
    - exists t0. split; [apply elem_of_app; by left | exact Hp].
    - split; [exact H3|]. intros Hall. apply H4.
      by apply Forall_app in Hall as [Hall _]. }
  destruct (String.eqb_spec (default "" (Trade.proxyWallet t)) "") as [Hempty|Hne];
    [by apply Hold|].
  destruct (decide (default "" (Trade.proxyWallet t) = wallet)) as [Heq|Hother].
  - rewrite Heq in Hw. rewrite lookup_insert_eq in Hw. injection Hw as <-.
    split; [congruence|]. split.
    { exists t. split; [apply elem_of_app; right; left|].
      destruct (Trade.proxyWallet t); simpl in *; congruence. }
    destruct (raw !! wallet) as [w0|] eqn:Hw0.
    + destruct (Hold w0 eq_refl) as (_ & _ & Hok & Hbought).
      split; [by apply apply_trade_ok|].
      intros Hall. apply apply_trade_bought; [|exact Hok | by apply Hbought].
      apply Forall_app in Hall as [_ Hall]. apply Forall_inv in Hall. exact Hall.
    + destruct (new_holding_ok (default "Yes" (Trade.outcome t))
                  (default 0%Z (Trade.outcomeIndex t))
                  (default 0%Z (Trade.timestamp t))) as [Hok Hbought].
      split; [by apply apply_trade_ok|].
      intros Hall. apply apply_trade_bought; [|exact Hok | exact Hbought].
      apply Forall_app in Hall as [_ Hall]. apply Forall_inv in Hall. exact Hall.
  - rewrite lookup_insert_ne in Hw by exact Hother. by apply Hold.
Qed.

(** X23.  Every position [build_positions] returns holds more than 5
    shares, belongs to a non-empty wallet address that appears in the
    trades, and has a first-trade timestamp that is not after its
    last-trade timestamp; no trades give no positions. *)
Theorem positions_pass_the_dust_threshold (trades : list Trade.t)
    (wallet : string) (w : Holding.t) :
  build_positions trades !! wallet = Some w ->
  5 < Holding.net_shares w
  /\ wallet <> ""
  /\ (exists t, t ∈ trades /\ Trade.proxyWallet t = Some wallet)
  /\ (Holding.first_trade_ts w <= Holding.last_trade_ts w)%Z.
Proof.
  intros Hw. apply build_positions_lookup in Hw as (w0 & Hw0 & -> & Hdust).
  destruct (record_trades_invariant trades wallet w0 Hw0)
    as (Hne & Htrade & (Hts & _) & _).
  assert (Hsame : Holding.net_shares (set_avg_entry w0) = Holding.net_shares w0
                  /\ Holding.first_trade_ts (set_avg_entry w0)
                     = Holding.first_trade_ts w0
                  /\ Holding.last_trade_ts (set_avg_entry w0)
                     = Holding.last_trade_ts w0).
  { unfold set_avg_entry. by destruct (Qltb 0 (Holding.total_buy_shares w0)). }
  destruct Hsame as (-> & -> & ->). done.
Qed.

(** X24.  When no trade has a negative size, every position
    [build_positions] returns was bought at least once, and its average
    entry price times the shares bought is the value invested. *)
Theorem positions_have_an_entry_price (trades : list Trade.t)
    (wallet : string) (w : Holding.t) :
  Forall (fun t => 0 <= default 0 (Trade.size t)) trades ->
  build_positions trades !! wallet = Some w ->
  (1 <= Holding.num_buys w)%Z
  /\ 5 < Holding.total_buy_shares w
  /\ Holding.avg_entry w * Holding.total_buy_shares w
     == Holding.usdc_invested w.
Proof.
  intros Hsizes Hw. apply build_positions_lookup in Hw as (w0 & Hw0 & -> & Hdust).
  destruct (record_trades_invariant trades wallet w0 Hw0)
    as (_ & _ & (_ & _ & Hbuys & _) & Hbought).
  destruct (Hbought Hsizes) as (Hnet & Htot & Hzero).
  assert (Hshares : 5 < Holding.total_buy_shares w0) by lra.
  unfold set_avg_entry. rewrite (proj2 (Qltb_lt 0 _)) by lra. cbn.
  split; [|split; [exact Hshares|field; lra]].
  destruct (Z.eq_dec (Holding.num_buys w0) 0%Z) as [Hz|Hnz]; [|lia].
  specialize (Hzero Hz). lra.
Qed.

(* ===================================================================== *)
(** ** Statistics computed from a wallet's positions                      *)
(* ===================================================================== *)

Section WalletStatsFacts.
Context `{RT : Runtime}.

Lemma add_position_ok (target_category : string) (cutoff : Z) (a : Acc.t)
    (p : ApiPosition.t) :
  acc_ok a -> acc_ok (add_position target_category cutoff a p).
Proof.
  intros (H1 & H2 & H3 & H4 & H5). unfold acc_ok, add_position. cbn.
  set (real := default 0 (ApiPosition.realizedPnl p)). clearbody real.
  split; [by rewrite H1|].
  destruct (Qeq_bool real 0) eqn:Hz.
  - apply Qeq_bool_iff in Hz.
    assert (Hnot : Qltb 0 real = false) by (apply Qltb_ge; lra).
    rewrite Hnot, !andb_false_r. cbn [negb andb].
    split; [lra|].
    destruct (ApiPosition.redeemable p); cbn [orb]; repeat split; try lia.
    intros Hc. specialize (H5 Hc). lra.
  - rewrite orb_true_r. cbn [negb andb].
    split.
    { destruct (cutoff <=? default 0%Z _)%Z; cbn [negb]; lra. }
    destruct (Qltb 0 real); repeat split; try lia; intros Hc; lia.
Qed.

Lemma positions_fold_ok (target_category : string) (cutoff : Z)
    (positions : list ApiPosition.t) :
  acc_ok (foldl (add_position target_category cutoff) Acc.init positions).
Proof.
  induction positions as [|p rest IH] using rev_ind.
  - unfold acc_ok. cbn. repeat split; try lia; try lra; try reflexivity.
  - rewrite foldl_snoc. by apply add_position_ok.
Qed.

Lemma stats_of_lookups (a : Acc.t) :
  get (stats_of a) "total_pnl" 0 = Acc.total_pnl a
  /\ get (stats_of a) "category_total" 0 = Acc.category_total a
  /\ get (stats_of a) "category_pnl" 0 = Acc.category_pnl a
  /\ get (stats_of a) "realized_pnl" 0 = Acc.realized_pnl a
  /\ get (stats_of a) "recent_pnl" 0 = Acc.recent_pnl a
  /\ get (stats_of a) "historical_pnl" 0 = Acc.historical_pnl a
  /\ get (stats_of a) "closed_wins" 0 = ofZ (Acc.closed_wins a)
  /\ get (stats_of a) "closed_total" 0 = ofZ (Acc.closed a)
  /\ get (stats_of a) "win_rate" 0.5
     = (if (0 <? Acc.closed a)%Z then ofZ (Acc.wins a) / ofZ (Acc.closed a)
        else 0.5)
  /\ get (stats_of a) "markets_traded" 0
     = (if (size (Acc.market_ids a) =? 0)%nat
        then ofZ (Z.max (Acc.closed a) 1)
        else ofnat (size (Acc.market_ids a))).
Proof.
  unfold get, stats_of. repeat split; by simplify_map_eq.
Qed.

Lemma category_pnl_without_match (target_category : string) (cutoff : Z)
    (positions : list ApiPosition.t) :
  Forall (fun p => matches_category target_category p = false) positions ->
  Acc.category_pnl
    (foldl (add_position target_category cutoff) Acc.init positions) = 0.
Proof.
  induction positions as [|p rest IH] using rev_ind; intros Hall; [reflexivity|].
  apply Forall_app in Hall as [Hrest Hp]. apply Forall_inv in Hp.
  rewrite foldl_snoc. unfold add_position. cbn.
  unfold matches_category in Hp. rewrite Hp. by apply IH.
Qed.

(** X25.  The statistics computed from a successful, non-empty response
    are consistent: the category total is the total profit, the realized
    profit is the sum of the recent and the historical profit, the closed
    wins lie between 0 and the closed total, and a wallet without closed
    positions has no realized profit. *)
Theorem wallet_stats_are_consistent (p : ApiPosition.t)
    (others : list ApiPosition.t) (target_category : string) :
  let stats :=
    wallet_stats_of_response (Returns (200%Z, p :: others)) target_category in
  get stats "category_total" 0 = get stats "total_pnl" 0
  /\ get stats "realized_pnl" 0
     == get stats "recent_pnl" 0 + get stats "historical_pnl" 0
  /\ 0 <= get stats "closed_wins" 0 <= get stats "closed_total" 0
  /\ (get stats "closed_total" 0 == 0 -> get stats "realized_pnl" 0 == 0).
Proof.
  cbn [wallet_stats_of_response Z.eqb Pos.eqb negb].
  set (a := foldl _ Acc.init (p :: others)).
  destruct (positions_fold_ok target_category
              (now - RECENT_WINDOW_DAYS * 86400) (p :: others))
    as (H1 & H2 & H3 & H4 & H5).
  fold a in H1, H2, H3, H4, H5.
  destruct (stats_of_lookups a)
    as (-> & -> & _ & -> & -> & -> & -> & -> & _ & _).
  split; [exact H1|]. split; [exact H2|]. unfold ofZ.
  split; [|intros Hz; apply H5].
  - split; [change 0 with (inject_Z 0)|]; rewrite <- Zle_Qle; lia.
  - exact (proj1 (inject_Z_injective _ 0%Z) Hz).
Qed.

(** X26.  In the statistics computed from a successful, non-empty
    response the win rate lies in [0, 1]: it is the closed wins divided by
    the closed total when the wallet has closed positions, and 0.5 when it
    has none. *)
Theorem wallet_stats_win_rate (p : ApiPosition.t)
    (others : list ApiPosition.t) (target_category : string) :
  let stats :=
    wallet_stats_of_response (Returns (200%Z, p :: others)) target_category in
  0 <= get stats "win_rate" 0.5 <= 1
  /\ (0 < get stats "closed_total" 0 ->
      get stats "win_rate" 0.5 * get stats "closed_total" 0
      == get stats "closed_wins" 0)
  /\ (get stats "closed_total" 0 == 0 -> get stats "win_rate" 0.5 = 0.5).
Proof.
  cbn [wallet_stats_of_response Z.eqb Pos.eqb negb].
  set (a := foldl _ Acc.init (p :: others)).
  destruct (positions_fold_ok target_category
              (now - RECENT_WINDOW_DAYS * 86400) (p :: others))
    as (_ & _ & H3 & H4 & _).
  fold a in H3, H4.
  destruct (stats_of_lookups a)
    as (_ & _ & _ & _ & _ & _ & -> & -> & -> & _).
  rewrite H4. unfold ofZ.
  destruct (Z.ltb_spec 0 (Acc.closed a)) as [Hpos|Hzero].
  - assert (Hc : 0 < inject_Z (Acc.closed a)).
    { change 0 with (inject_Z 0). rewrite <- Zlt_Qlt. lia. }
    assert (Hw : 0 <= inject_Z (Acc.closed_wins a) <= inject_Z (Acc.closed a)).
    { split; [change 0 with (inject_Z 0)|]; rewrite <- Zle_Qle; lia. }
    split; [split|split].
    + apply Qdiv_nonneg; lra.
    + apply Qle_shift_div_r; lra.
    + intros _. field. lra.
    + intros Hz. lra.
  - split; [lra|]. split; [|done].
    intros Hc. exfalso. change 0 with (inject_Z 0) in Hc.
    rewrite <- Zlt_Qlt in Hc. lia.
Qed.

(** X27.  In the statistics computed from a successful, non-empty
    response the number of markets traded is at least 1. *)
Theorem wallet_stats_count_a_market (p : ApiPosition.t)
    (others : list ApiPosition.t) (target_category : string) :
  let stats :=
    wallet_stats_of_response (Returns (200%Z, p :: others)) target_category in
  1 <= get stats "markets_traded" 0.
Proof.
  cbn [wallet_stats_of_response Z.eqb Pos.eqb negb].
  set (a := foldl _ Acc.init (p :: others)).
  destruct (stats_of_lookups a) as (_ & _ & _ & _ & _ & _ & _ & _ & _ & ->).
  unfold ofZ, ofnat. change 1 with (inject_Z 1).
  destruct (Nat.eqb_spec (size (Acc.market_ids a)) 0);
    rewrite <- Zle_Qle; lia.
Qed.

(** X28.  When no position of the wallet is in the target category (in
    particular when the target category is empty), the category profit of
    the computed statistics is 0, and for a wallet with a positive total
    profit the category-expertise multiplier is 0.85, the bottom of its
    range. *)
Theorem wallet_stats_without_category_match (p : ApiPosition.t)
    (others : list ApiPosition.t) (target_category : string) :
  Forall (fun q => matches_category target_category q = false) (p :: others) ->
  let stats :=
    wallet_stats_of_response (Returns (200%Z, p :: others)) target_category in
  get stats "category_pnl" 0 = 0
  /\ (0 < get stats "total_pnl" 0 ->
      compute_category_multiplier (get stats "category_pnl" 0)
        (get stats "category_total" 0) == 0.85).
Proof.
  intros Hnone. cbn [wallet_stats_of_response Z.eqb Pos.eqb negb].
  pose proof (category_pnl_without_match target_category
                (now - RECENT_WINDOW_DAYS * 86400) (p :: others) Hnone) as Hcat.
  destruct (positions_fold_ok target_category
              (now - RECENT_WINDOW_DAYS * 86400) (p :: others)) as (H1 & _).
  set (a := foldl _ Acc.init (p :: others)) in *.
  destruct (stats_of_lookups a) as (-> & -> & -> & _).
  rewrite Hcat, H1. split; [reflexivity|].
  intros Hpos. unfold compute_category_multiplier.
  rewrite (proj2 (Qleb_gt _ _) Hpos).
  replace (Qltb 0 0) with false by reflexivity. cbn [orb].
  assert (Hratio : 0 / Acc.total_pnl a == 0) by (field; lra).
  destruct (Qmax_cases (Qmin (0 / Acc.total_pnl a) 1) 0) as (M1 & M2 & [M3|M3]);
    destruct (Qmin_cases (0 / Acc.total_pnl a) 1) as (M4 & M5 & [M6|M6]); lra.
Qed.

End WalletStatsFacts.

(* ===================================================================== *)
(** ** The properties at concrete inputs                                  *)
(* ===================================================================== *)


Lemma score_conviction_range_witness :
  (0 <= 40 /\ 40 <= 100)
  /\ 0.25 <= score_conviction 40 100 <= 0.5.
Proof.
  assert (H1 : 0 <= 40) by (vm_compute; discriminate).
  assert (H2 : 40 <= 100) by (vm_compute; discriminate).
  split; [auto|].
  exact (proj2 (score_conviction_range 40 100) H1 H2).
Defined.

Lemma score_wallet_never_raises_witness :
  0 <= MIN_TOTAL_PNL
  /\ exists r, score_wallet "0xA" Examples.position Samples.stats_overall_loss
                 Examples.market 1700000000 MIN_TOTAL_PNL = Returns r.
Proof.
  assert (H : 0 <= MIN_TOTAL_PNL) by (vm_compute; discriminate).
  split; [exact H|].
  exact (score_wallet_never_raises "0xA" Examples.position
           Samples.stats_overall_loss Examples.market 1700000000
           MIN_TOTAL_PNL H).
Defined.


Lemma scored_profile_passed_the_filters_witness :
  exists p,
    score_wallet "0xB" Examples.position Examples.stats_nothing_closed
      Examples.market 1700000000 MIN_TOTAL_PNL = Returns (Some p)
    /\ Profile.address p = "0xB"
    /\ MIN_MARKETS <= Profile.markets_traded p.
Proof.
  destruct (score_wallet "0xB" Examples.position Examples.stats_nothing_closed
              Examples.market 1700000000 MIN_TOTAL_PNL) as [[p|]|e] eqn:Hs.
  - exists p. split; [reflexivity|].
    destruct (scored_profile_passed_the_filters "0xB" Examples.position
                Examples.stats_nothing_closed Examples.market 1700000000
                MIN_TOTAL_PNL p Hs) as (Ha & _ & _ & _ & _ & _ & Hm & _).
    split; [exact Ha | exact Hm].
  - exfalso. vm_compute in Hs. discriminate.
  - exfalso. vm_compute in Hs. discriminate.
Defined.

Lemma detected_clusters_partition_wallets_witness :
  NoDup (Profile.address <$> Examples.same_hour)
  /\ NoDup (concat (detect_clusters Examples.same_hour))
  /\ (2 * length (detect_clusters Examples.same_hour)
      <= length Examples.same_hour)%nat.
Proof.
  assert (Hnd : NoDup (Profile.address <$> Examples.same_hour))
    by (apply (bool_decide_unpack _); vm_compute; exact I).
  split; [exact Hnd|].
  destruct (detected_clusters_partition_wallets Examples.same_hour Hnd)
    as (H1 & _ & _ & H4).
  split; [exact H1 | exact H4].
Defined.

Lemma cluster_members_within_window_of_seed_witness :
  ["0xA"; "0xB"; "0xC"] ∈ detect_clusters Examples.same_hour
  /\ exists seed, seed ∈ Examples.same_hour
       /\ ["0xA"; "0xB"; "0xC"] !! 0%nat = Some (Profile.address seed).
Proof.
  assert (Hc : ["0xA"; "0xB"; "0xC"] ∈ detect_clusters Examples.same_hour).
  { replace (detect_clusters Examples.same_hour) with [["0xA"; "0xB"; "0xC"]]
      by (vm_compute; reflexivity). left. }
  split; [exact Hc|].
  destruct (cluster_members_within_window_of_seed Examples.same_hour _ Hc)
    as (seed & Hseed & Hhead & _).
  exists seed. split; [exact Hseed | exact Hhead].
Defined.

Lemma side_counts_within_total_witness :
  (3 <= length Examples.two_against_two)%nat
  /\ (Signal.yes_count (aggregate_signal Examples.two_against_two)
      + Signal.no_count (aggregate_signal Examples.two_against_two)
      <= Signal.total_qualified (aggregate_signal Examples.two_against_two))%nat.
Proof.
  assert (H : (3 <= length Examples.two_against_two)%nat) by (simpl; lia).
  split; [exact H|].
  exact (proj1 (side_counts_within_total Examples.two_against_two H)).
Defined.

Lemma collection_is_order_independent_witness :
  [Samples.returned "0xA" Examples.stats_small_profit;
   Samples.returned "0xB" Examples.stats_open_only]
  ≡ₚ [Samples.returned "0xB" Examples.stats_open_only;
      Samples.returned "0xA" Examples.stats_small_profit]
  /\ same_tally
       (foldl (collect MIN_TOTAL_PNL) Tally.init
          [Samples.returned "0xA" Examples.stats_small_profit;
           Samples.returned "0xB" Examples.stats_open_only])
       (foldl (collect MIN_TOTAL_PNL) Tally.init
          [Samples.returned "0xB" Examples.stats_open_only;
           Samples.returned "0xA" Examples.stats_small_profit]).
Proof.
  assert (H : [Samples.returned "0xA" Examples.stats_small_profit;
               Samples.returned "0xB" Examples.stats_open_only]
              ≡ₚ [Samples.returned "0xB" Examples.stats_open_only;
                  Samples.returned "0xA" Examples.stats_small_profit])
    by apply Permutation_swap.
  split; [exact H|].
  exact (collection_is_order_independent MIN_TOTAL_PNL _ _ H).
Defined.

Lemma every_holder_is_checked_witness :
  0 <= MIN_TOTAL_PNL
  /\ Tally.wallets_checked
       (foldl (collect MIN_TOTAL_PNL) Tally.init
          ((fun wp => _fetch_and_score_wallet Examples.fetch_fails ∅ wp.1 wp.2
                        Examples.market "Crypto" 1740000000 MIN_TOTAL_PNL false)
           <$> [("0xA", Examples.position); ("0xB", Examples.position)]))
     = 2%nat.
Proof.
  assert (H : 0 <= MIN_TOTAL_PNL) by (vm_compute; discriminate).
  split; [exact H|].
  exact (proj1 (every_holder_is_checked Examples.fetch_fails ∅ Examples.market
                  "Crypto" 1740000000 MIN_TOTAL_PNL false
                  [("0xA", Examples.position); ("0xB", Examples.position)] H)).
Defined.

Lemma positions_pass_the_dust_threshold_witness :
  exists w, build_positions Samples.trades !! "0xA" = Some w
    /\ 5 < Holding.net_shares w
    /\ (Holding.first_trade_ts w <= Holding.last_trade_ts w)%Z.
Proof.
  destruct (build_positions Samples.trades !! "0xA") as [w|] eqn:Hw.
  - exists w. split; [reflexivity|].
    destruct (positions_pass_the_dust_threshold Samples.trades "0xA" w Hw)
      as (H1 & _ & _ & H4).
    split; [exact H1 | exact H4].
  - exfalso. vm_compute in Hw. discriminate.
Defined.

Lemma positions_have_an_entry_price_witness :
  Forall (fun t => 0 <= default 0 (Trade.size t)) Samples.trades
  /\ exists w, build_positions Samples.trades !! "0xA" = Some w
       /\ (1 <= Holding.num_buys w)%Z
       /\ Holding.avg_entry w * Holding.total_buy_shares w
          == Holding.usdc_invested w.
Proof.
  assert (Hsizes : Forall (fun t => 0 <= default 0 (Trade.size t)) Samples.trades)
    by (repeat constructor; vm_compute; discriminate).
  split; [exact Hsizes|].
  destruct (build_positions Samples.trades !! "0xA") as [w|] eqn:Hw.
  - exists w. split; [reflexivity|].
    destruct (positions_have_an_entry_price Samples.trades "0xA" w Hsizes Hw)
      as (H1 & _ & H3).
    split; [exact H1 | exact H3].
  - exfalso. vm_compute in Hw. discriminate.
Defined.

Lemma wallet_stats_without_category_match_witness :
  Forall (fun q => matches_category "Sports" q = false) Samples.api_positions
  /\ get (wallet_stats_of_response (Returns (200%Z, Samples.api_positions))
            "Sports") "category_pnl" 0 = 0.
Proof.
  assert (H : Forall (fun q => matches_category "Sports" q = false)
                Samples.api_positions) by (repeat constructor).
  split; [exact H|].
  exact (proj1 (wallet_stats_without_category_match _ _ "Sports" H)).
Defined.
